(** * graphbolt negative sampler: collation of positive and negative edges

    A shallow embedding of [python/dgl/graphbolt/negative_sampler.py]
    (class [NegativeSampler]) and the properties of its minibatch transform.

    The Python object model is rendered as follows.
    - A one-dimensional integer tensor is a [list Z]; the result of
      [Tensor.view(-1, k)] is a [Tensor2], which keeps the flat row-major data
      next to its shape, as a view shares its storage with the viewed tensor.
    - A [dict] keyed by edge type is an association list in insertion order.
    - The minibatch is mutated in place and exceptions leave the mutations done
      so far: the methods live in a state-and-exception monad over [MiniBatch].
    - The overridable method [_sample_with_etype] is a section variable. *)

From Stdlib Require Import ZArith String List Bool Lia.
Import ListNotations.

Set Implicit Arguments.

(** ** Exceptions *)

Inductive Exc : Type :=
| AssertionError
| NotImplementedError
| TypeError
| RuntimeError
| KeyError.

(** ** The tensor primitives the sampler calls *)

Module torch.

Definition Tensor := list Z.

(** A two-dimensional view [rows x cols] over row-major [data]. *)
Record Tensor2 : Type := mkTensor2 { rows : Z; cols : Z; data : Tensor }.

Definition numel (t : Tensor) : Z := Z.of_nat (length t).

Definition ones_like (t : Tensor) : Tensor := map (fun _ => 1%Z) t.
Definition zeros_like (t : Tensor) : Tensor := map (fun _ => 0%Z) t.

(** [torch.cat] of one-dimensional tensors along dimension 0. *)
Definition cat (ts : list Tensor) : Tensor := concat ts.

(** [t.view(-1, k)]: the first dimension is inferred as [numel t / k]; the
    call raises unless [k] is positive and divides the number of elements
    (an empty tensor is viewed as [0 x k]). *)
Definition view (t : Tensor) (k : Z) : Exc + Tensor2 :=
  if ((0 <? k) && (numel t mod k =? 0))%Z
  then inr (mkTensor2 (numel t / k) k t)
  else inl RuntimeError.

Definition shape (t : Tensor2) : list Z := [rows t; cols t].

(** Element [[i, j]] of a two-dimensional view. *)
Definition item (t : Tensor2) (i j : Z) : option Z :=
  if ((0 <=? i) && (i <? rows t) && (0 <=? j) && (j <? cols t))%Z
  then nth_error (data t) (Z.to_nat (i * cols t + j))
  else None.

Definition sum (t : Tensor) : Z := fold_right Z.add 0%Z t.

End torch.

Import torch.

(** ** Dictionaries in insertion order *)

Definition dict (V : Type) : Type := list (string * V).

Definition keys {V} (d : dict V) : list string := map fst d.

Fixpoint dict_get {V} (d : dict V) (k : string) : option V :=
  match d with
  | [] => None
  | (k', v) :: d' => if String.eqb k' k then Some v else dict_get d' k
  end.

(** [d[k] = v]: replaces the value in place when [k] is present, appends the
    entry otherwise. *)
Fixpoint dict_set {V} (d : dict V) (k : string) (v : V) : dict V :=
  match d with
  | [] => [(k, v)]
  | (k', v') :: d' =>
      if String.eqb k' k then (k', v) :: d' else (k', v') :: dict_set d' k v
  end.

(** ** Data model *)

(** [LinkPredictionEdgeFormat] of [data_format.py]; [Unrecognized] stands for
    any other value handed to the constructor as [output_format]. *)
Inductive LinkPredictionEdgeFormat : Type :=
| INDEPENDENT
| CONDITIONED
| HEAD_CONDITIONED
| TAIL_CONDITIONED
| Unrecognized (tag : string).

Definition NodePairs : Type := (Tensor * Tensor)%type.

Inductive NodePairField : Type :=
| Pair (p : NodePairs)
| PairMapping (d : dict NodePairs).

Inductive LabelField : Type :=
| Labels (l : Tensor)
| LabelMapping (d : dict Tensor).

Inductive NegativeField : Type :=
| Reshaped (t : Tensor2)
| NegMapping (d : dict (option Tensor2)).

(** The fields of [MiniBatch] the sampler names; [None] is Python's [None].
    [other_fields] stands for every remaining attribute of the object. *)
Record MiniBatch : Type := mkMiniBatch {
  node_pair : option NodePairField;
  label : option LabelField;
  negative_head : option NegativeField;
  negative_tail : option NegativeField;
  other_fields : list (string * Tensor)
}.

Record NegativeSampler : Type := mkNegativeSampler {
  negative_ratio : Z;
  output_format : LinkPredictionEdgeFormat
}.

(** ** In-place mutation with exceptions *)

Definition M (A : Type) : Type := MiniBatch -> (Exc + A) * MiniBatch.

Definition ret {A} (a : A) : M A := fun mb => (inr a, mb).
Definition raise {A} (e : Exc) : M A := fun mb => (inl e, mb).
Definition bind {A B} (c : M A) (f : A -> M B) : M B :=
  fun mb => match c mb with
            | (inr a, mb') => f a mb'
            | (inl e, mb') => (inl e, mb')
            end.
Definition lift {A} (r : Exc + A) : M A := fun mb => (r, mb).
Definition get : M MiniBatch := fun mb => (inr mb, mb).

Declare Scope py_scope.
Delimit Scope py_scope with py.
Notation "x <- c ;; k" := (bind c (fun x => k))
  (at level 61, c at next level, right associativity) : py_scope.
Notation "' p <- c ;; k" := (bind c (fun x => let p := x in k))
  (at level 61, p pattern, c at next level, right associativity) : py_scope.
Notation "c ;; k" := (bind c (fun _ => k))
  (at level 61, right associativity) : py_scope.
Local Open Scope py_scope.

(** Attribute assignment [minibatch.f = v]. *)
Definition set_node_pair (v : option NodePairField) : M unit :=
  fun mb => (inr tt, mkMiniBatch v (label mb) (negative_head mb)
                       (negative_tail mb) (other_fields mb)).
Definition set_label (v : option LabelField) : M unit :=
  fun mb => (inr tt, mkMiniBatch (node_pair mb) v (negative_head mb)
                       (negative_tail mb) (other_fields mb)).
Definition set_negative_head (v : option NegativeField) : M unit :=
  fun mb => (inr tt, mkMiniBatch (node_pair mb) (label mb) v
                       (negative_tail mb) (other_fields mb)).
Definition set_negative_tail (v : option NegativeField) : M unit :=
  fun mb => (inr tt, mkMiniBatch (node_pair mb) (label mb) (negative_head mb)
                       v (other_fields mb)).

(** Item assignment [minibatch.f[etype] = v] on the dictionary held by the
    field: the dictionary object is updated, the attribute is not rebound. *)
Definition node_pair_setitem (etype : string) (v : NodePairs) : M unit :=
  mb <- get ;;
  match node_pair mb with
  | Some (PairMapping d) => set_node_pair (Some (PairMapping (dict_set d etype v)))
  | _ => raise TypeError
  end.
Definition label_setitem (etype : string) (v : Tensor) : M unit :=
  mb <- get ;;
  match label mb with
  | Some (LabelMapping d) => set_label (Some (LabelMapping (dict_set d etype v)))
  | _ => raise TypeError
  end.
Definition negative_head_setitem (etype : string) (v : option Tensor2) : M unit :=
  mb <- get ;;
  match negative_head mb with
  | Some (NegMapping d) =>
      set_negative_head (Some (NegMapping (dict_set d etype v)))
  | _ => raise TypeError
  end.
Definition negative_tail_setitem (etype : string) (v : option Tensor2) : M unit :=
  mb <- get ;;
  match negative_tail mb with
  | Some (NegMapping d) =>
      set_negative_tail (Some (NegMapping (dict_set d etype v)))
  | _ => raise TypeError
  end.

(** ** The sampler *)

(** [NegativeSampler.__init__]; the [datapipe] argument only feeds the
    [Mapper] base class and is left out. *)
Definition __init__ (negative_ratio : Z) (output_format : LinkPredictionEdgeFormat)
  : Exc + NegativeSampler :=
  if (0 <? negative_ratio)%Z
  then inr (mkNegativeSampler negative_ratio output_format)
  else inl AssertionError.

(** The base class's [_sample_with_etype]. *)
Definition base_sample_with_etype (node_pairs : NodePairs) (etype : option string)
  : Exc + NodePairs :=
  inl NotImplementedError.

Section Sampler.

(** The strategy a subclass supplies by overriding [_sample_with_etype]. *)
Variable _sample_with_etype : NodePairs -> option string -> Exc + NodePairs.

(** [minibatch.node_pair[etype] if etype is not None else minibatch.node_pair],
    unpacked as a pair.  [_sample] passes an edge type exactly when the
    field holds a mapping; the other combinations do not unpack. *)
Definition positive_pairs (etype : option string) : M NodePairs :=
  mb <- get ;;
  match etype, node_pair mb with
  | Some e, Some (PairMapping d) =>
      match dict_get d e with
      | Some p => ret p
      | None => raise KeyError
      end
  | None, Some (Pair p) => ret p
  | _, _ => raise TypeError
  end.

Definition _collate (self : NegativeSampler) (neg_pairs : NodePairs)
           (etype : option string) : M unit :=
  ' (pos_src, pos_dst) <- positive_pairs etype ;;
  let '(neg_src, neg_dst) := neg_pairs in
  match output_format self with
  | INDEPENDENT =>
      let pos_label := ones_like pos_src in
      let neg_label := zeros_like neg_src in
      let src := cat [pos_src; neg_src] in
      let dst := cat [pos_dst; neg_dst] in
      let label := cat [pos_label; neg_label] in
      match etype with
      | Some e =>
          node_pair_setitem e (src, dst) ;;
          label_setitem e label
      | None =>
          set_node_pair (Some (Pair (src, dst))) ;;
          set_label (Some (Labels label))
      end
  | fmt =>
      ' (neg_src, neg_dst) <-
        match fmt with
        | CONDITIONED =>
            neg_src <- lift (view neg_src (negative_ratio self)) ;;
            neg_dst <- lift (view neg_dst (negative_ratio self)) ;;
            ret (Some neg_src, Some neg_dst)
        | HEAD_CONDITIONED =>
            neg_src <- lift (view neg_src (negative_ratio self)) ;;
            ret (Some neg_src, None)
        | TAIL_CONDITIONED =>
            neg_dst <- lift (view neg_dst (negative_ratio self)) ;;
            ret (None, Some neg_dst)
        | _ => raise TypeError
        end ;;
      match etype with
      | Some e =>
          negative_head_setitem e neg_src ;;
          negative_tail_setitem e neg_dst
      | None =>
          set_negative_head (option_map Reshaped neg_src) ;;
          set_negative_tail (option_map Reshaped neg_dst)
      end
  end.

(** [for etype, pos_pairs in node_pairs.items(): ...] where [node_pairs] is
    the dictionary object held by [minibatch.node_pair]: the iterator reads
    entry [i] of the live dictionary, for as many entries as the dictionary
    had when the loop started. *)
Fixpoint for_items (self : NegativeSampler) (n i : nat) : M unit :=
  match n with
  | O => ret tt
  | S n' =>
      mb <- get ;;
      match node_pair mb with
      | Some (PairMapping d) =>
          match nth_error d i with
          | Some (etype, pos_pairs) =>
              neg_pairs <- lift (_sample_with_etype pos_pairs (Some etype)) ;;
              _collate self neg_pairs (Some etype) ;;
              for_items self n' (S i)
          | None => raise RuntimeError
          end
      | _ => raise RuntimeError
      end
  end.

(** [NegativeSampler._sample], the transform applied to each minibatch.  It
    returns the minibatch it was given, which is the final state here. *)
Definition _sample (self : NegativeSampler) : M unit :=
  mb <- get ;;
  match node_pair mb with
  | None => raise AssertionError
  | Some (PairMapping d) =>
      match output_format self with
      | INDEPENDENT => set_label (Some (LabelMapping []))
      | _ =>
          set_negative_head (Some (NegMapping [])) ;;
          set_negative_tail (Some (NegMapping []))
      end ;;
      for_items self (length d) 0 ;;
      match output_format self with
      | HEAD_CONDITIONED => set_negative_tail None
      | _ => ret tt
      end ;;
      match output_format self with
      | TAIL_CONDITIONED => set_negative_head None
      | _ => ret tt
      end
  | Some (Pair node_pairs) =>
      neg_pairs <- lift (_sample_with_etype node_pairs None) ;;
      _collate self neg_pairs None
  end.

End Sampler.

(** ** What one pass over the relations computes

    The per-relation results as plain functions, and the dictionary pass as a
    recursion over the entries; the loop of [_sample] is shown below to
    compute exactly these. *)

(** The INDEPENDENT construction for one relation: node pairs and labels. *)
Definition collate_independent (pos neg : NodePairs) : NodePairs * Tensor :=
  ((fst pos ++ fst neg, snd pos ++ snd neg),
   ones_like (fst pos) ++ zeros_like (fst neg)).

(** The reshapes of the conditioned formats: head and tail for one relation. *)
Definition reshape_negatives (fmt : LinkPredictionEdgeFormat) (k : Z)
           (neg : NodePairs) : Exc + (option Tensor2 * option Tensor2) :=
  match fmt with
  | CONDITIONED =>
      match view (fst neg) k with
      | inl x => inl x
      | inr s => match view (snd neg) k with
                 | inl x => inl x
                 | inr d => inr (Some s, Some d)
                 end
      end
  | HEAD_CONDITIONED =>
      match view (fst neg) k with
      | inl x => inl x
      | inr s => inr (Some s, None)
      end
  | TAIL_CONDITIONED =>
      match view (snd neg) k with
      | inl x => inl x
      | inr d => inr (None, Some d)
      end
  | _ => inl TypeError
  end.

Definition dict_map {A B} (f : A -> B) (d : dict A) : dict B :=
  map (fun kv => (fst kv, f (snd kv))) d.

(** Entries processed before the first failure, and that failure if any. *)
Fixpoint run_items {A} (step : string -> NodePairs -> Exc + A)
         (items : dict NodePairs) : dict A * option Exc :=
  match items with
  | [] => ([], None)
  | (e, pos) :: rest =>
      match step e pos with
      | inl x => ([], Some x)
      | inr a => let '(out, r) := run_items step rest in ((e, a) :: out, r)
      end
  end.

Definition outcome (r : option Exc) : Exc + unit :=
  match r with
  | None => inr tt
  | Some x => inl x
  end.

Definition recognized (fmt : LinkPredictionEdgeFormat) : bool :=
  match fmt with Unrecognized _ => false | _ => true end.

(** A length that [view(-1, k)] accepts. *)
Definition divisible (k : Z) (t : Tensor) : bool :=
  ((0 <? k) && (numel t mod k =? 0))%Z.

(** The lengths the format's reshapes accept; nothing is reshaped under
    INDEPENDENT. *)
Definition reshape_ok (fmt : LinkPredictionEdgeFormat) (k : Z) (neg : NodePairs)
  : bool :=
  match fmt with
  | INDEPENDENT => true
  | CONDITIONED => divisible k (fst neg) && divisible k (snd neg)
  | HEAD_CONDITIONED => divisible k (fst neg)
  | TAIL_CONDITIONED => divisible k (snd neg)
  | Unrecognized _ => false
  end.

(** The label layout of INDEPENDENT for [n] positives and ratio [k]. *)
Definition label_layout (n : nat) (k : Z) (l : Tensor) : Prop :=
  numel l = (Z.of_nat n * (1 + k))%Z /\
  firstn n l = repeat 1%Z n /\
  skipn n l = repeat 0%Z (Z.to_nat (Z.of_nat n * k)) /\
  sum l = Z.of_nat n.

(** A view of shape [[n, k]] whose element [[i, j]] is entry [i*k + j] of
    [flat]. *)
Definition row_major (n : nat) (k : Z) (flat : Tensor) (t : Tensor2) : Prop :=
  shape t = [Z.of_nat n; k] /\
  forall i j : Z,
    (0 <= i < Z.of_nat n)%Z -> (0 <= j < k)%Z ->
    item t i j = nth_error flat (Z.to_nat (i * k + j)) /\
    exists v, item t i j = Some v.

(** ** The loop of [_sample], relation by relation *)

(** What the loop body does for one relation, generator call included. *)
Definition step_independent (gen : NodePairs -> option string -> Exc + NodePairs)
           (e : string) (pos : NodePairs) : Exc + (NodePairs * Tensor) :=
  match gen pos (Some e) with
  | inl x => inl x
  | inr neg => inr (collate_independent pos neg)
  end.

Definition step_conditioned (gen : NodePairs -> option string -> Exc + NodePairs)
           (fmt : LinkPredictionEdgeFormat) (k : Z)
           (e : string) (pos : NodePairs)
  : Exc + (option Tensor2 * option Tensor2) :=
  match gen pos (Some e) with
  | inl x => inl x
  | inr neg => reshape_negatives fmt k neg
  end.

(** The mapping branch of [_sample] around its loop: the containers it
    installs before iterating and the side it drops afterwards. *)
Definition init_containers (fmt : LinkPredictionEdgeFormat) (mb : MiniBatch)
  : MiniBatch :=
  match fmt with
  | INDEPENDENT =>
      mkMiniBatch (node_pair mb) (Some (LabelMapping [])) (negative_head mb)
                  (negative_tail mb) (other_fields mb)
  | _ =>
      mkMiniBatch (node_pair mb) (label mb) (Some (NegMapping []))
                  (Some (NegMapping [])) (other_fields mb)
  end.

Definition drop_unselected (fmt : LinkPredictionEdgeFormat) (mb : MiniBatch)
  : MiniBatch :=
  match fmt with
  | HEAD_CONDITIONED =>
      mkMiniBatch (node_pair mb) (label mb) (negative_head mb) None
                  (other_fields mb)
  | TAIL_CONDITIONED =>
      mkMiniBatch (node_pair mb) (label mb) None (negative_tail mb)
                  (other_fields mb)
  | _ => mb
  end.

(** The reshapes of relation [it] go through, whatever the counts. *)
Definition relation_reshapes (gen : NodePairs -> option string -> Exc + NodePairs)
           (fmt : LinkPredictionEdgeFormat) (k : Z) (it : string * NodePairs)
  : bool :=
  match gen (snd it) (Some (fst it)) with
  | inr neg => reshape_ok fmt k neg
  | inl _ => true
  end.

(** ** Relations between the minibatch before and after a call *)

(** The fields a format leaves alone: everything but [node_pair] and [label]
    under INDEPENDENT, everything but [negative_head] and [negative_tail]
    under any other format. *)
Definition frame (fmt : LinkPredictionEdgeFormat) (mb mb' : MiniBatch) : Prop :=
  other_fields mb' = other_fields mb /\
  match fmt with
  | INDEPENDENT =>
      negative_head mb' = negative_head mb /\
      negative_tail mb' = negative_tail mb
  | _ =>
      node_pair mb' = node_pair mb /\ label mb' = label mb
  end.

(** Two minibatches that coincide on [node_pair] and on the fields the format
    writes. *)
Definition agree (fmt : LinkPredictionEdgeFormat) (mb1 mb2 : MiniBatch) : Prop :=
  node_pair mb1 = node_pair mb2 /\
  match fmt with
  | INDEPENDENT => label mb1 = label mb2
  | _ =>
      negative_head mb1 = negative_head mb2 /\
      negative_tail mb1 = negative_tail mb2
  end.

(** The mappings the format writes have exactly the relations of [d], in the
    order of [d]. *)
Definition same_relations (fmt : LinkPredictionEdgeFormat) (d : dict NodePairs)
           (mb : MiniBatch) : Prop :=
  match fmt with
  | INDEPENDENT =>
      exists npd lbd,
        node_pair mb = Some (PairMapping npd) /\
        label mb = Some (LabelMapping lbd) /\
        keys npd = keys d /\ keys lbd = keys d
  | HEAD_CONDITIONED =>
      exists hds,
        negative_head mb = Some (NegMapping hds) /\ keys hds = keys d
  | TAIL_CONDITIONED =>
      exists tls,
        negative_tail mb = Some (NegMapping tls) /\ keys tls = keys d
  | _ =>
      exists hds tls,
        negative_head mb = Some (NegMapping hds) /\
        negative_tail mb = Some (NegMapping tls) /\
        keys hds = keys d /\ keys tls = keys d
  end.

(** Relation [e] is present in the mappings the format writes, with an empty
    value: no pairs and no labels, or a [0 x k] reshape. *)
Definition empty_entry (fmt : LinkPredictionEdgeFormat) (k : Z) (e : string)
           (mb : MiniBatch) : Prop :=
  match fmt with
  | INDEPENDENT =>
      exists npd lbd,
        node_pair mb = Some (PairMapping npd) /\
        label mb = Some (LabelMapping lbd) /\
        dict_get npd e = Some ([], []) /\ dict_get lbd e = Some []
  | CONDITIONED =>
      exists hds tls,
        negative_head mb = Some (NegMapping hds) /\
        negative_tail mb = Some (NegMapping tls) /\
        dict_get hds e = Some (Some (mkTensor2 0 k [])) /\
        dict_get tls e = Some (Some (mkTensor2 0 k []))
  | HEAD_CONDITIONED =>
      exists hds,
        negative_head mb = Some (NegMapping hds) /\
        dict_get hds e = Some (Some (mkTensor2 0 k []))
  | TAIL_CONDITIONED =>
      exists tls,
        negative_tail mb = Some (NegMapping tls) /\
        dict_get tls e = Some (Some (mkTensor2 0 k []))
  | Unrecognized _ => False
  end.

(** ** Example inputs *)

(** A strategy that returns the same negatives whatever it is asked. *)
Definition fixed_negatives (neg : NodePairs)
  : NodePairs -> option string -> Exc + NodePairs :=
  fun _ _ => inr neg.

(** A strategy that draws, for every positive pair, [k] negatives: sources
    [100 + i] and destinations [200 + i] for positive index [i], laid out
    contiguously per positive. *)
Definition block_negatives (k : nat)
  : NodePairs -> option string -> Exc + NodePairs :=
  fun pos _ =>
    let idx := seq 0 (length (fst pos)) in
    inr (flat_map (fun i => repeat (100 + Z.of_nat i)%Z k) idx,
         flat_map (fun i => repeat (200 + Z.of_nat i)%Z k) idx).

(** A minibatch that carries nothing but [node_pair]. *)
Definition fresh_minibatch (np : NodePairField) : MiniBatch :=
  mkMiniBatch (Some np) None None None [].

Definition two_positives : NodePairs := ([1; 2]%Z, [3; 4]%Z).

Definition two_relations : dict NodePairs :=
  [("A"%string, ([1]%Z, [2]%Z)); ("B"%string, ([3]%Z, [4]%Z))].

(** Relation [B] has no positive pair. *)
Definition with_empty_relation : dict NodePairs :=
  [("A"%string, ([1; 2]%Z, [3; 4]%Z)); ("B"%string, ([], []))].

(** A strategy that raises [x] when asked about relation [e0] and behaves as
    [block_negatives 1] otherwise. *)
Definition fails_on (e0 : string) (x : Exc)
  : NodePairs -> option string -> Exc + NodePairs :=
  fun pos etype =>
    match etype with
    | Some e => if String.eqb e e0 then inl x else block_negatives 1 pos etype
    | None => block_negatives 1 pos etype
    end.

(** ** Well-formed input and faithful reshapes *)

(** The keys of a Python dictionary are distinct. *)
Definition distinct_relations (np : option NodePairField) : Prop :=
  match np with
  | Some (PairMapping d) => NoDup (keys d)
  | _ => True
  end.

(** [t] is a view with [k] columns over exactly the elements of [flat], in
    their order: none dropped, none added. *)
Definition faithful_view (k : Z) (flat : Tensor) (t : Tensor2) : Prop :=
  data t = flat /\ cols t = k /\ (rows t * cols t)%Z = numel flat.

(** What [node_pair] may become: a missing value stays missing, a pair stays a
    pair, a mapping stays a mapping over the same relations in the same
    order. *)
Definition same_shape (before after : option NodePairField) : Prop :=
  match before, after with
  | None, None => True
  | Some (Pair _), Some (Pair _) => True
  | Some (PairMapping d), Some (PairMapping d') => keys d' = keys d
  | _, _ => False
  end.

(** Two answers of a generator that raise the same error, or return pairs
    with the same component [proj]. *)
Definition same_on (proj : NodePairs -> Tensor) (r1 r2 : Exc + NodePairs)
  : Prop :=
  match r1, r2 with
  | inl x, inl y => x = y
  | inr n1, inr n2 => proj n1 = proj n2
  | _, _ => False
  end.

(** A strategy that returns two negatives for relation [A] and one negative
    for any other relation. *)
Definition uneven_negatives : NodePairs -> option string -> Exc + NodePairs :=
  fun pos etype =>
    match etype with
    | Some "A"%string => inr ([7; 8]%Z, [5; 6]%Z)
    | _ => inr ([9]%Z, [8]%Z)
    end.

(** ** Tactics *)

Ltac run_monad :=
  unfold _collate, positive_pairs, node_pair_setitem, label_setitem,
    negative_head_setitem, negative_tail_setitem, set_node_pair, set_label,
    set_negative_head, set_negative_tail, bind, get, ret, raise, lift;
  simpl.

(** * Lemmas *)

(** ** Dictionaries *)

Section DictFacts.

Context {V : Type}.
Implicit Types (d : dict V) (k : string) (v : V).

Lemma dict_get_app_notin d1 d2 k :
  ~ In k (keys d1) -> dict_get (d1 ++ d2) k = dict_get d2 k.
Proof.
  induction d1 as [|[k' v'] d1 IH]; simpl; intros Hn; [reflexivity|].
  destruct (String.eqb_spec k' k) as [->|_]; [tauto|].
  apply IH; tauto.
Qed.

Lemma dict_get_head d k v : dict_get ((k, v) :: d) k = Some v.
Proof. simpl. now rewrite String.eqb_refl. Qed.

Lemma dict_set_app_notin d1 d2 k v :
  ~ In k (keys d1) -> dict_set (d1 ++ d2) k v = d1 ++ dict_set d2 k v.
Proof.
  induction d1 as [|[k' v'] d1 IH]; simpl; intros Hn; [reflexivity|].
  destruct (String.eqb_spec k' k) as [->|_]; [tauto|].
  f_equal. apply IH; tauto.
Qed.

Lemma dict_set_head d k v v' : dict_set ((k, v') :: d) k v = (k, v) :: d.
Proof. simpl. now rewrite String.eqb_refl. Qed.

Lemma dict_set_fresh d k v :
  ~ In k (keys d) -> dict_set d k v = d ++ [(k, v)].
Proof.
  intros Hn. rewrite <- (app_nil_r d) at 1.
  now rewrite dict_set_app_notin.
Qed.

Lemma nth_error_middle (d1 d2 : dict V) (x : string * V) :
  nth_error (d1 ++ x :: d2) (length d1) = Some x.
Proof.
  rewrite nth_error_app2 by lia. now rewrite Nat.sub_diag.
Qed.

Lemma dict_get_In d k v :
  NoDup (keys d) -> In (k, v) d -> dict_get d k = Some v.
Proof.
  induction d as [|[k' v'] d IH]; simpl; intros Hnd Hin; [tauto|].
  inversion Hnd as [|? ? Hk Hnd']; subst.
  destruct Hin as [Heq|Hin].
  - inversion Heq; subst. now rewrite String.eqb_refl.
  - destruct (String.eqb_spec k' k) as [->|_].
    + exfalso. apply Hk. change k with (fst (k, v)). now apply in_map.
    + now apply IH.
Qed.

Lemma keys_app d1 d2 : keys (d1 ++ d2) = keys d1 ++ keys d2.
Proof. apply map_app. Qed.

End DictFacts.

Lemma keys_dict_map {A B} (f : A -> B) (d : dict A) :
  keys (dict_map f d) = keys d.
Proof.
  unfold keys, dict_map. rewrite map_map. now apply map_ext.
Qed.

Lemma dict_get_dict_map {A B} (f : A -> B) (d : dict A) (k : string) :
  dict_get (dict_map f d) k = option_map f (dict_get d k).
Proof.
  induction d as [|[k' a] d IH]; simpl; [reflexivity|].
  now destruct (String.eqb k' k).
Qed.

(** ** The pass over the entries *)

Section RunItems.

Context {A : Type}.
Variable step : string -> NodePairs -> Exc + A.

Lemma run_items_cons e pos rest :
  run_items step ((e, pos) :: rest) =
  match step e pos with
  | inl x => ([], Some x)
  | inr a => ((e, a) :: fst (run_items step rest), snd (run_items step rest))
  end.
Proof.
  simpl. destruct (step e pos); [reflexivity|].
  now destruct (run_items step rest).
Qed.

Lemma run_items_keys items :
  keys (fst (run_items step items)) =
  firstn (length (fst (run_items step items))) (keys items).
Proof.
  induction items as [|[e pos] rest IH]; simpl; [reflexivity|].
  destruct (step e pos) as [x|a]; simpl; [reflexivity|].
  destruct (run_items step rest) as [out r]; simpl in *.
  now f_equal.
Qed.

Lemma run_items_length items :
  length (fst (run_items step items)) <= length items.
Proof.
  induction items as [|[e pos] rest IH]; simpl; [lia|].
  destruct (step e pos) as [x|a]; simpl; [lia|].
  destruct (run_items step rest) as [out r]; simpl in *. lia.
Qed.

(** A pass without failure has processed every entry, in order. *)
Lemma run_items_success items out :
  run_items step items = (out, None) ->
  Forall2 (fun it o => fst o = fst it /\ step (fst it) (snd it) = inr (snd o))
          items out.
Proof.
  revert out.
  induction items as [|[e pos] rest IH]; simpl; intros out H.
  - inversion H. constructor.
  - destruct (step e pos) as [x|a] eqn:Hs; [discriminate|].
    destruct (run_items step rest) as [out' r] eqn:Hr.
    inversion H; subst. constructor; [now split|]. now apply IH.
Qed.

Lemma run_items_success_all items out e pos :
  run_items step items = (out, None) -> In (e, pos) items ->
  exists a, step e pos = inr a.
Proof.
  intros H. apply run_items_success in H.
  induction H as [|[e' pos'] o items out [_ Hs] _ IH]; simpl; intros Hin;
    [tauto|].
  destruct Hin as [Heq|Hin]; [|now apply IH].
  inversion Heq; subst. now exists (snd o).
Qed.

Lemma run_items_success_keys items out :
  run_items step items = (out, None) -> keys out = keys items.
Proof.
  intros H. apply run_items_success in H.
  induction H as [|it o items out [Hk _] _ IH]; simpl; [reflexivity|].
  now f_equal.
Qed.

Lemma run_items_success_get items out e pos :
  run_items step items = (out, None) ->
  NoDup (keys items) -> In (e, pos) items ->
  exists a, step e pos = inr a /\ dict_get out e = Some a.
Proof.
  intros H. apply run_items_success in H.
  induction H as [|[e' pos'] [e'' a] items out [Hk Hs] _ IH];
    simpl in *; intros Hnd Hin; [tauto|].
  subst e''. inversion Hnd as [|? ? Hnotin Hnd']; subst.
  destruct Hin as [Heq|Hin].
  - inversion Heq; subst. exists a. now rewrite String.eqb_refl.
  - destruct (String.eqb_spec e' e) as [->|_].
    + exfalso. apply Hnotin. change e with (fst (e, pos)). now apply in_map.
    + now apply IH.
Qed.

(** The pass fails exactly when some entry's step fails, and then with the
    failure of such an entry. *)
Lemma run_items_failure items x :
  snd (run_items step items) = Some x ->
  exists e pos, In (e, pos) items /\ step e pos = inl x.
Proof.
  induction items as [|[e pos] rest IH]; simpl; [discriminate|].
  destruct (step e pos) as [y|a] eqn:Hs; simpl.
  - intros H; inversion H; subst. exists e, pos. auto.
  - destruct (run_items step rest) as [out r]; simpl in *.
    intros H. destruct (IH H) as (e' & pos' & Hin & Hs').
    exists e', pos'. auto.
Qed.

Lemma run_items_total items :
  (forall e pos, In (e, pos) items -> exists a, step e pos = inr a) ->
  snd (run_items step items) = None.
Proof.
  intros Hall. destruct (snd (run_items step items)) as [x|] eqn:Hr;
    [|reflexivity].
  apply run_items_failure in Hr. destruct Hr as (e & pos & Hin & Hs).
  destruct (Hall e pos Hin) as [a Ha]. congruence.
Qed.

End RunItems.

(** ** One collation step *)

Lemma cat_pair (a b : Tensor) : cat [a; b] = a ++ b.
Proof. unfold cat. simpl. now rewrite app_nil_r. Qed.

Section CollateFacts.

Variable self : NegativeSampler.

Lemma collate_pair_independent pos neg l h t o :
  output_format self = INDEPENDENT ->
  _collate self neg None (mkMiniBatch (Some (Pair pos)) l h t o) =
  (inr tt,
   mkMiniBatch (Some (Pair (fst (collate_independent pos neg))))
               (Some (Labels (snd (collate_independent pos neg)))) h t o).
Proof.
  intros Hf. destruct pos as [ps pd], neg as [ns nd].
  run_monad. rewrite Hf. run_monad. now rewrite !app_nil_r.
Qed.

Lemma collate_pair_conditioned pos neg l h t o :
  output_format self <> INDEPENDENT ->
  _collate self neg None (mkMiniBatch (Some (Pair pos)) l h t o) =
  match reshape_negatives (output_format self) (negative_ratio self) neg with
  | inl x => (inl x, mkMiniBatch (Some (Pair pos)) l h t o)
  | inr (s, d) =>
      (inr tt, mkMiniBatch (Some (Pair pos)) l
                           (option_map Reshaped s) (option_map Reshaped d) o)
  end.
Proof.
  intros Hf. destruct pos as [ps pd], neg as [ns nd].
  run_monad. destruct (output_format self); try congruence; run_monad;
    repeat match goal with
           | |- context [view ?a ?k] => destruct (view a k); simpl
           end; reflexivity.
Qed.

Lemma collate_mapping_independent e pos neg d lb h t o :
  output_format self = INDEPENDENT ->
  dict_get d e = Some pos ->
  _collate self neg (Some e)
           (mkMiniBatch (Some (PairMapping d)) (Some (LabelMapping lb)) h t o) =
  (inr tt,
   mkMiniBatch
     (Some (PairMapping (dict_set d e (fst (collate_independent pos neg)))))
     (Some (LabelMapping (dict_set lb e (snd (collate_independent pos neg)))))
     h t o).
Proof.
  intros Hf Hg. destruct pos as [ps pd], neg as [ns nd].
  run_monad. rewrite Hg, Hf. run_monad. now rewrite !app_nil_r.
Qed.

Lemma collate_mapping_conditioned e pos neg d l hd tl o :
  output_format self <> INDEPENDENT ->
  dict_get d e = Some pos ->
  _collate self neg (Some e)
           (mkMiniBatch (Some (PairMapping d)) l (Some (NegMapping hd))
                        (Some (NegMapping tl)) o) =
  match reshape_negatives (output_format self) (negative_ratio self) neg with
  | inl x =>
      (inl x, mkMiniBatch (Some (PairMapping d)) l (Some (NegMapping hd))
                          (Some (NegMapping tl)) o)
  | inr (s, t) =>
      (inr tt,
       mkMiniBatch (Some (PairMapping d)) l
                   (Some (NegMapping (dict_set hd e s)))
                   (Some (NegMapping (dict_set tl e t))) o)
  end.
Proof.
  intros Hf Hg. destruct pos as [ps pd], neg as [ns nd].
  run_monad. rewrite Hg.
  destruct (output_format self); try congruence; run_monad;
    repeat match goal with
           | |- context [view ?a ?k] => destruct (view a k); simpl
           end; reflexivity.
Qed.

End CollateFacts.

(** One iteration of the loop. *)
Lemma for_items_step gen self n i mb :
  for_items gen self (S n) i mb =
  match node_pair mb with
  | Some (PairMapping d) =>
      match nth_error d i with
      | Some (etype, pos_pairs) =>
          match gen pos_pairs (Some etype) with
          | inl x => (inl x, mb)
          | inr neg_pairs =>
              match _collate self neg_pairs (Some etype) mb with
              | (inr _, mb') => for_items gen self n (S i) mb'
              | (inl x, mb') => (inl x, mb')
              end
          end
      | None => (inl RuntimeError, mb)
      end
  | _ => (inl RuntimeError, mb)
  end.
Proof.
  cbn [for_items]. unfold bind at 1. unfold get.
  destruct (node_pair mb) as [[p|d]|]; try reflexivity.
  destruct (nth_error d i) as [[e pos]|]; reflexivity.
Qed.

Lemma sample_mapping gen self mb d :
  node_pair mb = Some (PairMapping d) ->
  _sample gen self mb =
  match for_items gen self (length d) 0
                  (init_containers (output_format self) mb) with
  | (inr _, mb') => (inr tt, drop_unselected (output_format self) mb')
  | (inl x, mb') => (inl x, mb')
  end.
Proof.
  destruct mb as [np l h t o]. simpl. intros ->.
  unfold _sample, init_containers, drop_unselected.
  unfold bind at 1. unfold get. cbn [node_pair].
  destruct (output_format self); unfold bind, set_label, set_negative_head,
    set_negative_tail, ret; cbn [fst snd node_pair label negative_head
                                  negative_tail other_fields];
    destruct (for_items gen self (length d) 0 _) as [[x|[]] mb'];
    reflexivity.
Qed.

(** ** The loop over the relations *)

Section LoopFacts.

Variable gen : NodePairs -> option string -> Exc + NodePairs.
Variable self : NegativeSampler.

Lemma NoDup_keys_middle {V} (d1 d2 : dict V) e v :
  NoDup (keys (d1 ++ (e, v) :: d2)) -> ~ In e (keys d1).
Proof.
  rewrite keys_app. simpl. intros H. apply NoDup_remove_2 in H.
  intros Hin. apply H. apply in_or_app. now left.
Qed.

Lemma for_items_independent :
  output_format self = INDEPENDENT ->
  forall rest done lb h t o,
    NoDup (keys (done ++ rest)) -> keys lb = keys done ->
    for_items gen self (length rest) (length done)
      (mkMiniBatch (Some (PairMapping (done ++ rest)))
                   (Some (LabelMapping lb)) h t o) =
    (outcome (snd (run_items (step_independent gen) rest)),
     mkMiniBatch
       (Some (PairMapping
                (done ++ dict_map fst (fst (run_items (step_independent gen) rest))
                 ++ skipn (length (fst (run_items (step_independent gen) rest)))
                          rest)))
       (Some (LabelMapping
                (lb ++ dict_map snd (fst (run_items (step_independent gen) rest)))))
       h t o).
Proof.
  intros Hf. induction rest as [|[e pos] rest IH]; intros done lb h t o Hnd Hk.
  - simpl. unfold ret. now rewrite !app_nil_r.
  - pose proof (NoDup_keys_middle _ _ _ _ Hnd) as Hfresh.
    rewrite run_items_cons. cbn [for_items length].
    unfold bind at 1. unfold get. cbn [node_pair].
    rewrite nth_error_middle. unfold bind at 1, lift.
    pose proof (eq_refl (step_independent gen e pos)) as Hs.
    unfold step_independent at 2 in Hs.
    destruct (gen pos (Some e)) as [x|neg] eqn:Hg; rewrite Hs.
    + simpl. now rewrite !app_nil_r.
    + unfold bind at 1.
      rewrite (@collate_mapping_independent self e pos neg); auto.
      2:{ rewrite dict_get_app_notin by assumption. apply dict_get_head. }
      rewrite dict_set_app_notin, dict_set_head by assumption.
      rewrite dict_set_fresh by (rewrite Hk; assumption).
      set (c := collate_independent pos neg).
      replace (done ++ (e, fst c) :: rest) with ((done ++ [(e, fst c)]) ++ rest)
        by (now rewrite <- app_assoc).
      replace (S (length done)) with (length (done ++ [(e, fst c)]))
        by (rewrite length_app; simpl; lia).
      rewrite IH.
      * simpl. now rewrite <- !app_assoc.
      * rewrite <- app_assoc. simpl. rewrite keys_app in *. exact Hnd.
      * rewrite !keys_app, Hk. reflexivity.
Qed.

Lemma for_items_conditioned :
  output_format self <> INDEPENDENT ->
  forall rest done l hd tl o,
    NoDup (keys (done ++ rest)) ->
    keys hd = keys done -> keys tl = keys done ->
    for_items gen self (length rest) (length done)
      (mkMiniBatch (Some (PairMapping (done ++ rest))) l
                   (Some (NegMapping hd)) (Some (NegMapping tl)) o) =
    let run := run_items (step_conditioned gen (output_format self)
                                           (negative_ratio self)) rest in
    (outcome (snd run),
     mkMiniBatch (Some (PairMapping (done ++ rest))) l
                 (Some (NegMapping (hd ++ dict_map fst (fst run))))
                 (Some (NegMapping (tl ++ dict_map snd (fst run)))) o).
Proof.
  intros Hf. induction rest as [|[e pos] rest IH];
    intros done l hd tl o Hnd Hkh Hkt.
  - simpl. unfold ret. now rewrite !app_nil_r.
  - pose proof (NoDup_keys_middle _ _ _ _ Hnd) as Hfresh.
    cbv zeta. rewrite run_items_cons. cbn [for_items length].
    unfold bind at 1. unfold get. cbn [node_pair].
    rewrite nth_error_middle. unfold bind at 1, lift.
    pose proof (eq_refl (step_conditioned gen (output_format self)
                                          (negative_ratio self) e pos)) as Hs.
    unfold step_conditioned at 2 in Hs.
    destruct (gen pos (Some e)) as [x|neg] eqn:Hg; rewrite Hs.
    + simpl. now rewrite !app_nil_r.
    + unfold bind at 1.
      rewrite (@collate_mapping_conditioned self e pos neg); auto.
      2:{ rewrite dict_get_app_notin by assumption. apply dict_get_head. }
      destruct (reshape_negatives (output_format self) (negative_ratio self) neg)
        as [x|[s d]] eqn:Hr.
      * simpl. now rewrite !app_nil_r.
      * rewrite !dict_set_fresh by (rewrite ?Hkh, ?Hkt; assumption).
        replace (done ++ (e, pos) :: rest) with ((done ++ [(e, pos)]) ++ rest)
          by (now rewrite <- app_assoc).
        replace (S (length done)) with (length (done ++ [(e, pos)]))
          by (rewrite length_app; simpl; lia).
        rewrite IH.
        -- simpl. now rewrite <- !app_assoc.
        -- rewrite <- app_assoc. exact Hnd.
        -- rewrite !keys_app, Hkh. reflexivity.
        -- rewrite !keys_app, Hkt. reflexivity.
Qed.

End LoopFacts.

(** ** The transform on each shape of [node_pair] *)

Section SampleFacts.

Variable gen : NodePairs -> option string -> Exc + NodePairs.
Variable self : NegativeSampler.

Lemma sample_missing l h t o :
  _sample gen self (mkMiniBatch None l h t o) =
  (inl AssertionError, mkMiniBatch None l h t o).
Proof. reflexivity. Qed.

Lemma sample_pair pos l h t o :
  _sample gen self (mkMiniBatch (Some (Pair pos)) l h t o) =
  match gen pos None with
  | inl x => (inl x, mkMiniBatch (Some (Pair pos)) l h t o)
  | inr neg => _collate self neg None (mkMiniBatch (Some (Pair pos)) l h t o)
  end.
Proof.
  unfold _sample, bind, get, lift. simpl.
  now destruct (gen pos None).
Qed.

Lemma sample_mapping_independent d l h t o :
  output_format self = INDEPENDENT ->
  NoDup (keys d) ->
  _sample gen self (mkMiniBatch (Some (PairMapping d)) l h t o) =
  let run := run_items (step_independent gen) d in
  (outcome (snd run),
   mkMiniBatch
     (Some (PairMapping (dict_map fst (fst run) ++ skipn (length (fst run)) d)))
     (Some (LabelMapping (dict_map snd (fst run)))) h t o).
Proof.
  intros Hf Hnd. rewrite sample_mapping with (d := d) by reflexivity.
  rewrite Hf. unfold init_containers, drop_unselected.
  cbn [node_pair label negative_head negative_tail other_fields].
  pose proof (@for_items_independent gen self Hf d [] [] h t o Hnd eq_refl) as H.
  simpl in H. rewrite H. clear H. cbv zeta.
  destruct (snd (run_items (step_independent gen) d)); reflexivity.
Qed.

Lemma sample_mapping_conditioned d l h t o :
  output_format self <> INDEPENDENT ->
  NoDup (keys d) ->
  _sample gen self (mkMiniBatch (Some (PairMapping d)) l h t o) =
  let run := run_items (step_conditioned gen (output_format self)
                                         (negative_ratio self)) d in
  match snd run with
  | Some x =>
      (inl x,
       mkMiniBatch (Some (PairMapping d)) l
                   (Some (NegMapping (dict_map fst (fst run))))
                   (Some (NegMapping (dict_map snd (fst run)))) o)
  | None =>
      (inr tt,
       mkMiniBatch (Some (PairMapping d)) l
                   match output_format self with
                   | TAIL_CONDITIONED => None
                   | _ => Some (NegMapping (dict_map fst (fst run)))
                   end
                   match output_format self with
                   | HEAD_CONDITIONED => None
                   | _ => Some (NegMapping (dict_map snd (fst run)))
                   end o)
  end.
Proof.
  intros Hf Hnd.
  pose proof (@for_items_conditioned gen self Hf d [] l [] [] o Hnd
                                     eq_refl eq_refl) as H.
  simpl in H. cbv zeta.
  rewrite sample_mapping with (d := d) by reflexivity.
  replace (init_containers (output_format self)
                           (mkMiniBatch (Some (PairMapping d)) l h t o))
    with (mkMiniBatch (Some (PairMapping d)) l (Some (NegMapping []))
                      (Some (NegMapping [])) o)
    by (unfold init_containers; destruct (output_format self);
        try congruence; reflexivity).
  rewrite H. clear H.
  destruct (snd (run_items _ d)) as [x|]; simpl; [reflexivity|].
  destruct (output_format self); try congruence; reflexivity.
Qed.

End SampleFacts.

(** ** Layout of the labels and of the reshaped negatives *)

Lemma ones_like_repeat (t : Tensor) : ones_like t = repeat 1%Z (length t).
Proof. induction t; simpl; [reflexivity|now f_equal]. Qed.

Lemma zeros_like_repeat (t : Tensor) : zeros_like t = repeat 0%Z (length t).
Proof. induction t; simpl; [reflexivity|now f_equal]. Qed.

Lemma sum_app (a b : Tensor) : sum (a ++ b) = (sum a + sum b)%Z.
Proof. unfold sum. induction a; simpl; [reflexivity|]. rewrite IHa. lia. Qed.

Lemma sum_repeat (v : Z) (n : nat) : sum (repeat v n) = (Z.of_nat n * v)%Z.
Proof.
  unfold sum. induction n; [reflexivity|].
  cbn [repeat fold_right]. rewrite IHn. lia.
Qed.

Lemma label_layout_collate (ps ns : Tensor) (k : Z) :
  numel ns = (numel ps * k)%Z ->
  label_layout (length ps) k (ones_like ps ++ zeros_like ns).
Proof.
  unfold label_layout, numel. intros Hn.
  rewrite ones_like_repeat, zeros_like_repeat.
  repeat split.
  - rewrite length_app, !repeat_length. lia.
  - rewrite firstn_app, repeat_length, Nat.sub_diag. simpl.
    rewrite app_nil_r. apply firstn_all2. rewrite repeat_length. lia.
  - rewrite skipn_app, repeat_length, Nat.sub_diag. simpl.
    rewrite skipn_all2 by (rewrite repeat_length; lia). simpl.
    f_equal. lia.
  - rewrite sum_app, !sum_repeat. lia.
Qed.

Lemma view_row_major (flat : Tensor) (n : nat) (k : Z) :
  (0 < k)%Z -> numel flat = (Z.of_nat n * k)%Z ->
  view flat k = inr (mkTensor2 (Z.of_nat n) k flat) /\
  row_major n k flat (mkTensor2 (Z.of_nat n) k flat).
Proof.
  intros Hk Hn. unfold view. rewrite Hn.
  rewrite Z_mod_mult, Z_div_mult by lia.
  assert (Hpos : (0 <? k)%Z = true) by (apply Z.ltb_lt; lia).
  rewrite Hpos. simpl. split; [reflexivity|].
  split; [reflexivity|]. intros i j Hi Hj.
  unfold item. simpl.
  assert (Hin : ((0 <=? i) && (i <? Z.of_nat n) && (0 <=? j) && (j <? k))%Z
                = true).
  { rewrite !andb_true_iff, !Z.leb_le, !Z.ltb_lt. lia. }
  rewrite Hin. split; [reflexivity|].
  destruct (nth_error flat (Z.to_nat (i * k + j))) as [v|] eqn:Hv;
    [now exists v|].
  apply nth_error_None in Hv. unfold numel in Hn. exfalso. nia.
Qed.

Lemma view_divisible (flat : Tensor) (k : Z) :
  view flat k =
  if divisible k flat then inr (mkTensor2 (numel flat / k) k flat)
  else inl RuntimeError.
Proof. reflexivity. Qed.

(** ** Which fields a call may change *)

Lemma frame_refl fmt mb : frame fmt mb mb.
Proof. unfold frame. destruct fmt; auto. Qed.

Lemma frame_trans fmt mb1 mb2 mb3 :
  frame fmt mb1 mb2 -> frame fmt mb2 mb3 -> frame fmt mb1 mb3.
Proof.
  unfold frame. intros [Ho H12] [Ho' H23]. split; [congruence|].
  destruct fmt; destruct H12, H23; split; congruence.
Qed.

Lemma collate_frame self neg etype mb :
  frame (output_format self) mb (snd (_collate self neg etype mb)).
Proof.
  destruct mb as [np l h t o], neg as [ns nd].
  unfold frame.
  destruct etype as [e|], np as [[[ps pd]|d]|]; run_monad;
    try (destruct (dict_get d e) as [[ps pd]|]; simpl);
    destruct (output_format self); simpl; auto;
    repeat match goal with
           | |- context [view ?a ?k] => destruct (view a k); simpl; auto
           end;
    destruct l as [[?|?]|], h as [[?|?]|], t as [[?|?]|]; simpl; auto.
Qed.

Section FrameFacts.

Variable gen : NodePairs -> option string -> Exc + NodePairs.
Variable self : NegativeSampler.

Lemma for_items_frame n :
  forall i mb, frame (output_format self) mb (snd (for_items gen self n i mb)).
Proof.
  induction n as [|n IH]; intros i mb; [apply frame_refl|].
  cbn [for_items]. unfold bind at 1. unfold get.
  destruct (node_pair mb) as [[p|d]|]; try apply frame_refl.
  destruct (nth_error d i) as [[e pos]|]; try apply frame_refl.
  unfold bind at 1, lift.
  destruct (gen pos (Some e)) as [x|neg]; [apply frame_refl|].
  unfold bind at 1.
  pose proof (collate_frame self neg (Some e) mb) as Hc.
  destruct (_collate self neg (Some e) mb) as [[x|u] mb1]; [exact Hc|].
  eapply frame_trans; [exact Hc|apply IH].
Qed.

Lemma sample_frame mb :
  frame (output_format self) mb (snd (_sample gen self mb)).
Proof.
  destruct (node_pair mb) as [[p|d]|] eqn:Hnp.
  - destruct mb as [np l h t o]. simpl in Hnp. subst np. rewrite sample_pair.
    destruct (gen p None) as [x|neg]; [apply frame_refl|].
    apply collate_frame.
  - rewrite sample_mapping with (d := d) by assumption.
    assert (Hinit : frame (output_format self) mb
                          (init_containers (output_format self) mb)).
    { unfold frame, init_containers. destruct (output_format self); simpl; auto. }
    pose proof (for_items_frame (length d) 0
                  (init_containers (output_format self) mb)) as Hl.
    destruct (for_items gen self (length d) 0 _) as [[x|u] mb1];
      simpl in *; [eapply frame_trans; eassumption|].
    eapply frame_trans; [exact Hinit|]. eapply frame_trans; [exact Hl|].
    unfold frame, drop_unselected. destruct (output_format self); simpl; auto.
  - unfold _sample, bind, get. rewrite Hnp. apply frame_refl.
Qed.

End FrameFacts.

(** ** Which fields a call depends on *)

Lemma collate_agree self neg e mb1 mb2 :
  agree (output_format self) mb1 mb2 ->
  fst (_collate self neg (Some e) mb1) = fst (_collate self neg (Some e) mb2) /\
  agree (output_format self) (snd (_collate self neg (Some e) mb1))
        (snd (_collate self neg (Some e) mb2)).
Proof.
  destruct mb1 as [np l1 h1 t1 o1], mb2 as [np2 l2 h2 t2 o2], neg as [ns nd].
  unfold agree. simpl. intros [<- H].
  destruct np as [[[ps pd]|d]|]; run_monad;
    try (destruct (dict_get d e) as [[ps pd]|]; simpl);
    destruct (output_format self); simpl; auto;
    match type of H with
    | _ /\ _ => destruct H; subst h2 t2
    | _ => subst l2
    end;
    repeat match goal with
           | |- context [view ?a ?k] => destruct (view a k); simpl; auto
           end;
    try (destruct l1 as [[?|?]|]; simpl; auto);
    try (destruct h1 as [[?|?]|], t1 as [[?|?]|]; simpl; auto).
Qed.

Section AgreeFacts.

Variable gen : NodePairs -> option string -> Exc + NodePairs.
Variable self : NegativeSampler.

Lemma for_items_agree n :
  forall i mb1 mb2,
    agree (output_format self) mb1 mb2 ->
    fst (for_items gen self n i mb1) = fst (for_items gen self n i mb2) /\
    agree (output_format self) (snd (for_items gen self n i mb1))
          (snd (for_items gen self n i mb2)).
Proof.
  induction n as [|n IH]; intros i mb1 mb2 Ha; [now split|].
  rewrite !for_items_step.
  pose proof Ha as [Hnp _]. rewrite <- Hnp.
  destruct (node_pair mb1) as [[p|d]|]; try (now split).
  destruct (nth_error d i) as [[e pos]|]; try (now split).
  destruct (gen pos (Some e)) as [x|neg]; [now split|].
  destruct (collate_agree self neg e Ha) as [Hr Hs].
  destruct (_collate self neg (Some e) mb1) as [[x1|u1] m1],
           (_collate self neg (Some e) mb2) as [[x2|u2] m2];
    simpl in Hr, Hs; try discriminate; [now split|].
  now apply IH.
Qed.

End AgreeFacts.

(** * Construction *)

(** C8. Constructing the sampler with a zero or negative [negative_ratio]
    fails at once with the assertion's error, so no sampler exists to process
    a minibatch; with a positive [negative_ratio] construction succeeds and
    the object stores [negative_ratio] and [output_format] as given. *)
Theorem init_checks_negative_ratio :
  forall (r : Z) (fmt : LinkPredictionEdgeFormat),
    ((r <= 0)%Z -> __init__ r fmt = inl AssertionError) /\
    ((0 < r)%Z ->
     exists self, __init__ r fmt = inr self /\
                  negative_ratio self = r /\ output_format self = fmt).
Proof.
  intros r fmt. unfold __init__. split; intros Hr.
  - destruct (Z.ltb_spec 0 r); [lia|reflexivity].
  - destruct (Z.ltb_spec 0 r); [|lia].
    eexists. split; [reflexivity|]. now split.
Qed.

(** * Frame *)

(** C5. Whatever the outcome of the transform, the fields outside the selected
    format's are as they were on entry: under INDEPENDENT [negative_head] and
    [negative_tail] are not written, under every other format [node_pair] and
    [label] are not written, and the remaining fields of the minibatch are
    never written. *)
Theorem sample_writes_only_format_fields :
  forall (gen : NodePairs -> option string -> Exc + NodePairs)
         (self : NegativeSampler) (mb : MiniBatch),
    other_fields (snd (_sample gen self mb)) = other_fields mb /\
    match output_format self with
    | INDEPENDENT =>
        negative_head (snd (_sample gen self mb)) = negative_head mb /\
        negative_tail (snd (_sample gen self mb)) = negative_tail mb
    | _ =>
        node_pair (snd (_sample gen self mb)) = node_pair mb /\
        label (snd (_sample gen self mb)) = label mb
    end.
Proof.
  intros gen self mb. exact (sample_frame gen self mb).
Qed.

(** * Independence from earlier field values *)

(** C10. Two minibatches with the same [node_pair], whatever their other
    fields hold, are transformed with the same outcome; when the transform
    returns normally, and for a mapping [node_pair] in any case, the fields
    the format writes ([node_pair] and [label] under INDEPENDENT,
    [negative_head] and [negative_tail] otherwise) end up equal. *)
Theorem sample_overwrites_previous_values :
  forall (gen : NodePairs -> option string -> Exc + NodePairs)
         (self : NegativeSampler) (np : option NodePairField)
         (l1 l2 : option LabelField) (h1 h2 t1 t2 : option NegativeField)
         (o1 o2 : list (string * Tensor)),
    fst (_sample gen self (mkMiniBatch np l1 h1 t1 o1)) =
    fst (_sample gen self (mkMiniBatch np l2 h2 t2 o2)) /\
    (fst (_sample gen self (mkMiniBatch np l1 h1 t1 o1)) = inr tt \/
     (exists d, np = Some (PairMapping d)) ->
     agree (output_format self)
           (snd (_sample gen self (mkMiniBatch np l1 h1 t1 o1)))
           (snd (_sample gen self (mkMiniBatch np l2 h2 t2 o2)))).
Proof.
  intros gen self np l1 l2 h1 h2 t1 t2 o1 o2.
  destruct np as [[pos|d]|].
  - rewrite !sample_pair.
    destruct (gen pos None) as [x|neg]; simpl.
    { split; [reflexivity|]. intros [H|[d H]]; discriminate. }
    destruct (output_format self) eqn:Hf.
    1: rewrite !collate_pair_independent by assumption; simpl;
       unfold agree; simpl; auto.
    all: rewrite !collate_pair_conditioned by congruence; rewrite Hf;
      destruct (reshape_negatives _ (negative_ratio self) neg) as [x|[s d]];
      simpl; (split; [reflexivity|]);
      [intros [H|[d H]]; discriminate|];
      intros _; unfold agree; simpl; auto.
  - rewrite !sample_mapping with (d := d) by reflexivity.
    set (m1 := init_containers _ (mkMiniBatch _ l1 h1 t1 o1)).
    set (m2 := init_containers _ (mkMiniBatch _ l2 h2 t2 o2)).
    assert (Ha : agree (output_format self) m1 m2).
    { subst m1 m2. unfold agree, init_containers.
      destruct (output_format self); simpl; auto. }
    destruct (for_items_agree gen self (length d) 0 Ha) as [Hr Hs].
    destruct (for_items gen self (length d) 0 m1) as [[x1|u1] m1'],
             (for_items gen self (length d) 0 m2) as [[x2|u2] m2'];
      simpl in Hr, Hs; try discriminate.
    { simpl. split; [exact Hr|]. intros _. exact Hs. }
    simpl. split; [reflexivity|]. intros _.
    unfold agree, drop_unselected in *. destruct Hs as [Hnp Hs].
    destruct (output_format self); simpl; auto.
    all: destruct Hs as [Hh Ht]; auto.
  - simpl. split; [reflexivity|]. intros [H|[d H]]; discriminate.
Qed.

(** * Unrecognized output format *)

Lemma collate_unrecognized k tag neg etype mb :
  fst (positive_pairs etype mb) <> inl KeyError ->
  fst (positive_pairs etype mb) <> inl TypeError ->
  _collate (mkNegativeSampler k (Unrecognized tag)) neg etype mb =
  (inl TypeError, mb).
Proof.
  destruct mb as [np l h t o], neg as [ns nd].
  destruct etype as [e|], np as [[[ps pd]|d]|]; run_monad;
    try (destruct (dict_get d e) as [[ps pd]|]; simpl);
    intros H1 H2; congruence.
Qed.

(** The mapping branch under an unrecognized format: final state and outcome. *)
Lemma sample_mapping_unrecognized :
  forall (gen : NodePairs -> option string -> Exc + NodePairs)
         (k : Z) (tag : string) (d : dict NodePairs)
         (l : option LabelField) (h t : option NegativeField)
         (o : list (string * Tensor)),
    snd (_sample gen (mkNegativeSampler k (Unrecognized tag))
                 (mkMiniBatch (Some (PairMapping d)) l h t o)) =
    mkMiniBatch (Some (PairMapping d)) l (Some (NegMapping []))
                (Some (NegMapping [])) o /\
    fst (_sample gen (mkNegativeSampler k (Unrecognized tag))
                 (mkMiniBatch (Some (PairMapping d)) l h t o)) =
    match d with
    | [] => inr tt
    | (e, pos) :: _ =>
        match gen pos (Some e) with
        | inl x => inl x
        | inr _ => inl TypeError
        end
    end.
Proof.
  intros gen k tag d l h t o.
  rewrite sample_mapping with (d := d) by reflexivity.
  unfold init_containers, drop_unselected. cbn [output_format node_pair label
    negative_head negative_tail other_fields].
  destruct d as [|[e pos] rest]; [now split|].
  cbn [length]. rewrite for_items_step. cbn [node_pair nth_error].
  destruct (gen pos (Some e)) as [x|neg]; [now split|].
  rewrite collate_unrecognized.
  - now split.
  - unfold positive_pairs, bind, get. cbn [node_pair].
    rewrite dict_get_head. discriminate.
  - unfold positive_pairs, bind, get. cbn [node_pair].
    rewrite dict_get_head. discriminate.
Qed.

(** C9. With a mapping [node_pair] and an output format outside the four
    recognized ones, the call ends, whatever its outcome, in the entry
    minibatch with [negative_head] and [negative_tail] replaced by empty
    mappings: the unsupported-format error is raised by the collation of the
    first relation, after those two assignments and before any relation has
    been collated, so a failing call leaves a minibatch whose two fields
    differ from any other value they held on entry. *)
Theorem unsupported_format_error_is_not_atomic :
  forall (gen : NodePairs -> option string -> Exc + NodePairs)
         (k : Z) (tag : string) (d : dict NodePairs)
         (l : option LabelField) (h t : option NegativeField)
         (o : list (string * Tensor)),
    snd (_sample gen (mkNegativeSampler k (Unrecognized tag))
                 (mkMiniBatch (Some (PairMapping d)) l h t o)) =
    mkMiniBatch (Some (PairMapping d)) l (Some (NegMapping []))
                (Some (NegMapping [])) o /\
    fst (_sample gen (mkNegativeSampler k (Unrecognized tag))
                 (mkMiniBatch (Some (PairMapping d)) l h t o)) =
    match d with
    | [] => inr tt
    | (e, pos) :: _ =>
        match gen pos (Some e) with
        | inl x => inl x
        | inr _ => inl TypeError
        end
    end /\
    (h <> Some (NegMapping []) \/ t <> Some (NegMapping []) ->
     snd (_sample gen (mkNegativeSampler k (Unrecognized tag))
                  (mkMiniBatch (Some (PairMapping d)) l h t o)) <>
     mkMiniBatch (Some (PairMapping d)) l h t o).
Proof.
  intros gen k tag d l h t o.
  destruct (sample_mapping_unrecognized gen k tag d l h t o) as [Hs Hr].
  repeat split; [exact Hs|exact Hr|].
  rewrite Hs. intros [H|H] Heq; apply H; now inversion Heq.
Qed.

(** C7, amended to what the code does.  With an output format outside the four recognized
    ones the transform raises the unsupported-format error at its first
    collation step: for a bare pair, and for a mapping with at least one
    relation, once the generator has returned for that (first) relation (a
    generator error propagates instead).  For an empty mapping no collation
    step runs and the transform returns normally. *)
Theorem unsupported_format_raises_at_first_collation :
  forall (gen : NodePairs -> option string -> Exc + NodePairs)
         (k : Z) (tag : string)
         (l : option LabelField) (h t : option NegativeField)
         (o : list (string * Tensor)),
    (forall pos,
        _sample gen (mkNegativeSampler k (Unrecognized tag))
                (mkMiniBatch (Some (Pair pos)) l h t o) =
        (match gen pos None with
         | inl x => inl x
         | inr _ => inl TypeError
         end, mkMiniBatch (Some (Pair pos)) l h t o)) /\
    (forall e pos rest,
        fst (_sample gen (mkNegativeSampler k (Unrecognized tag))
                     (mkMiniBatch (Some (PairMapping ((e, pos) :: rest)))
                                  l h t o)) =
        match gen pos (Some e) with
        | inl x => inl x
        | inr _ => inl TypeError
        end) /\
    fst (_sample gen (mkNegativeSampler k (Unrecognized tag))
                 (mkMiniBatch (Some (PairMapping [])) l h t o)) = inr tt.
Proof.
  intros gen k tag l h t o. repeat split.
  - intros pos. rewrite sample_pair.
    destruct (gen pos None) as [x|neg]; [reflexivity|].
    apply collate_unrecognized; destruct pos; discriminate.
  - intros e pos rest.
    apply (sample_mapping_unrecognized gen k tag ((e, pos) :: rest) l h t o).
Qed.

(** C7, as the claim states it, fails on an empty mapping: a sampler built
    with an unrecognized format transforms it without any error. *)
Lemma unsupported_format_unnoticed_on_empty_mapping :
  __init__ 1 (Unrecognized "ranked") =
    inr (mkNegativeSampler 1 (Unrecognized "ranked")) /\
  _sample (fixed_negatives ([9%Z], [8%Z]))
          (mkNegativeSampler 1 (Unrecognized "ranked"))
          (fresh_minibatch (PairMapping [])) =
  (inr tt,
   mkMiniBatch (Some (PairMapping [])) None (Some (NegMapping []))
               (Some (NegMapping [])) []).
Proof. split; reflexivity. Qed.

(** * Lengths the reshapes accept *)

Lemma reshape_negatives_ok fmt k neg :
  fmt <> INDEPENDENT -> reshape_ok fmt k neg = true ->
  exists s d, reshape_negatives fmt k neg = inr (s, d).
Proof.
  intros Hf. destruct fmt; try congruence; simpl;
    rewrite ?view_divisible, ?andb_true_iff.
  - intros [-> ->]. eauto.
  - intros ->. eauto.
  - intros ->. eauto.
  - discriminate.
Qed.

Lemma reshape_negatives_error fmt k neg x :
  recognized fmt = true -> fmt <> INDEPENDENT ->
  reshape_negatives fmt k neg = inl x ->
  x = RuntimeError /\ reshape_ok fmt k neg = false.
Proof.
  intros Hr Hf. destruct fmt; try congruence; try discriminate; simpl;
    rewrite ?view_divisible;
    repeat match goal with
           | |- context [divisible ?a ?b] => destruct (divisible a b)
           end; simpl; intros H; inversion H; auto.
Qed.

Lemma reshape_negatives_success fmt k neg s d :
  reshape_negatives fmt k neg = inr (s, d) -> reshape_ok fmt k neg = true.
Proof.
  destruct fmt; simpl; try discriminate; rewrite ?view_divisible;
    repeat match goal with
           | |- context [divisible ?a ?b] => destruct (divisible a b)
           end; simpl; congruence.
Qed.

Lemma independent_or_not (fmt : LinkPredictionEdgeFormat) :
  fmt = INDEPENDENT \/ fmt <> INDEPENDENT.
Proof. destruct fmt; auto; right; discriminate. Qed.

Section ShapeChecks.

Variable gen : NodePairs -> option string -> Exc + NodePairs.
Variable self : NegativeSampler.
Hypothesis Hrec : recognized (output_format self) = true.

Lemma sample_pair_shape_check pos neg l h t o :
  gen pos None = inr neg ->
  fst (_sample gen self (mkMiniBatch (Some (Pair pos)) l h t o)) =
    (if reshape_ok (output_format self) (negative_ratio self) neg
     then inr tt else inl RuntimeError) /\
  (reshape_ok (output_format self) (negative_ratio self) neg = false ->
   snd (_sample gen self (mkMiniBatch (Some (Pair pos)) l h t o)) =
   mkMiniBatch (Some (Pair pos)) l h t o).
Proof.
  intros Hg. rewrite sample_pair, Hg.
  destruct (independent_or_not (output_format self)) as [Hf|Hf].
  - rewrite collate_pair_independent by assumption. rewrite Hf. simpl.
    split; [reflexivity|discriminate].
  - rewrite collate_pair_conditioned by assumption.
    destruct (reshape_negatives (output_format self) (negative_ratio self) neg)
      as [x|[s d]] eqn:Hre.
    + destruct (reshape_negatives_error _ _ Hrec Hf Hre) as [-> ->].
      now split.
    + rewrite (reshape_negatives_success _ _ _ Hre).
      split; [reflexivity|discriminate].
Qed.

Lemma sample_mapping_shape_check d l h t o :
  NoDup (keys d) ->
  (forall e pos, In (e, pos) d -> exists neg, gen pos (Some e) = inr neg) ->
  fst (_sample gen self (mkMiniBatch (Some (PairMapping d)) l h t o)) =
  if forallb (relation_reshapes gen (output_format self) (negative_ratio self)) d
  then inr tt else inl RuntimeError.
Proof.
  intros Hnd Hgen.
  destruct (independent_or_not (output_format self)) as [Hf|Hf].
  - rewrite sample_mapping_independent by assumption. cbv zeta. simpl.
    rewrite run_items_total.
    + replace (forallb _ d) with true; [reflexivity|].
      symmetry. apply forallb_forall. intros [e pos] Hin.
      unfold relation_reshapes. rewrite Hf. simpl.
      now destruct (gen pos (Some e)).
    + intros e pos Hin. destruct (Hgen e pos Hin) as [neg Hg].
      unfold step_independent. rewrite Hg. eauto.
  - rewrite sample_mapping_conditioned by assumption. cbv zeta.
    set (step := step_conditioned gen (output_format self) (negative_ratio self)).
    destruct (run_items step d) as [out r] eqn:Hrun. simpl.
    destruct r as [x|]; simpl.
    + pose proof (run_items_failure step d) as Hfail.
      rewrite Hrun in Hfail. destruct (Hfail x eq_refl) as (e & pos & Hin & Hs).
      destruct (Hgen e pos Hin) as [neg Hg].
      subst step. unfold step_conditioned in Hs. rewrite Hg in Hs.
      destruct (reshape_negatives_error _ _ Hrec Hf Hs) as [-> Hbad].
      replace (forallb _ d) with false; [reflexivity|].
      symmetry. apply not_true_is_false. intros Hall.
      rewrite forallb_forall in Hall. specialize (Hall _ Hin).
      unfold relation_reshapes in Hall. simpl in Hall. rewrite Hg in Hall.
      congruence.
    + replace (forallb _ d) with true; [reflexivity|].
      symmetry. apply forallb_forall. intros [e pos] Hin.
      destruct (@run_items_success_all _ step d out e pos Hrun Hin) as [[s t'] Hs].
      destruct (Hgen e pos Hin) as [neg Hg].
      subst step. unfold step_conditioned in Hs. rewrite Hg in Hs.
      unfold relation_reshapes. simpl. rewrite Hg.
      exact (reshape_negatives_success _ _ _ Hs).
Qed.

End ShapeChecks.

(** ** Mapping input when every relation goes through *)

Lemma keys_length {V W} (d1 : dict V) (d2 : dict W) :
  keys d1 = keys d2 -> length d1 = length d2.
Proof.
  unfold keys. intros H. apply (f_equal (@length string)) in H.
  now rewrite !length_map in H.
Qed.

Section MappingRuns.

Variable gen : NodePairs -> option string -> Exc + NodePairs.
Variable self : NegativeSampler.

Lemma sample_mapping_independent_ok d l h t o :
  output_format self = INDEPENDENT ->
  NoDup (keys d) ->
  (forall e pos, In (e, pos) d -> exists neg, gen pos (Some e) = inr neg) ->
  exists out,
    keys out = keys d /\
    _sample gen self (mkMiniBatch (Some (PairMapping d)) l h t o) =
    (inr tt, mkMiniBatch (Some (PairMapping (dict_map fst out)))
                         (Some (LabelMapping (dict_map snd out))) h t o) /\
    forall e pos, In (e, pos) d ->
      exists neg, gen pos (Some e) = inr neg /\
                  dict_get out e = Some (collate_independent pos neg).
Proof.
  intros Hf Hnd Hgen.
  rewrite sample_mapping_independent by assumption. cbv zeta.
  destruct (run_items (step_independent gen) d) as [out r] eqn:Hrun.
  assert (Hr : r = None).
  { change r with (snd (out, r)). rewrite <- Hrun. apply run_items_total.
    intros e pos Hin. destruct (Hgen e pos Hin) as [neg Hg].
    unfold step_independent. rewrite Hg. eauto. }
  subst r. pose proof (@run_items_success_keys _ _ d out Hrun) as Hk.
  exists out. simpl. split; [exact Hk|]. split.
  - rewrite (@keys_length _ _ out d Hk), skipn_all, app_nil_r. reflexivity.
  - intros e pos Hin.
    destruct (@run_items_success_get _ _ d out e pos Hrun Hnd Hin)
      as (a & Hs & Hget).
    destruct (Hgen e pos Hin) as [neg Hg].
    unfold step_independent in Hs. rewrite Hg in Hs. inversion Hs; subst.
    eauto.
Qed.

Lemma sample_mapping_conditioned_ok d l h t o :
  output_format self <> INDEPENDENT ->
  NoDup (keys d) ->
  (forall e pos, In (e, pos) d ->
     exists a, step_conditioned gen (output_format self) (negative_ratio self)
                                e pos = inr a) ->
  exists out,
    keys out = keys d /\
    _sample gen self (mkMiniBatch (Some (PairMapping d)) l h t o) =
    (inr tt,
     mkMiniBatch (Some (PairMapping d)) l
                 match output_format self with
                 | TAIL_CONDITIONED => None
                 | _ => Some (NegMapping (dict_map fst out))
                 end
                 match output_format self with
                 | HEAD_CONDITIONED => None
                 | _ => Some (NegMapping (dict_map snd out))
                 end o) /\
    forall e pos, In (e, pos) d ->
      exists a, step_conditioned gen (output_format self) (negative_ratio self)
                                 e pos = inr a /\
                dict_get out e = Some a.
Proof.
  intros Hf Hnd Hstep.
  rewrite sample_mapping_conditioned by assumption. cbv zeta.
  set (step := step_conditioned gen (output_format self) (negative_ratio self))
    in *.
  destruct (run_items step d) as [out r] eqn:Hrun.
  assert (Hr : r = None).
  { change r with (snd (out, r)). rewrite <- Hrun.
    now apply run_items_total. }
  subst r. exists out. simpl.
  split; [exact (@run_items_success_keys _ step d out Hrun)|].
  split; [reflexivity|].
  intros e pos Hin.
    exact (@run_items_success_get _ step d out e pos Hrun Hnd Hin).
Qed.

End MappingRuns.

(** * Shape mismatches between generator and sampler *)

(** C1, amended to what the code does.  The sampler compares no counts.  With a
    recognized format and a generator that returns a pair for every relation,
    the transform fails, with the reshape's error, exactly when a sequence the
    format reshapes ([neg_src] under CONDITIONED and HEAD_CONDITIONED,
    [neg_dst] under CONDITIONED and TAIL_CONDITIONED) has a length that is not
    a multiple of [negative_ratio]; for a bare pair nothing has been written
    by then.  Under INDEPENDENT nothing is reshaped and the transform always
    succeeds. *)
Theorem only_reshape_rejects_lengths :
  forall (gen : NodePairs -> option string -> Exc + NodePairs)
         (self : NegativeSampler),
    recognized (output_format self) = true ->
    (forall pos neg l h t o,
        gen pos None = inr neg ->
        fst (_sample gen self (mkMiniBatch (Some (Pair pos)) l h t o)) =
          (if reshape_ok (output_format self) (negative_ratio self) neg
           then inr tt else inl RuntimeError) /\
        (reshape_ok (output_format self) (negative_ratio self) neg = false ->
         snd (_sample gen self (mkMiniBatch (Some (Pair pos)) l h t o)) =
         mkMiniBatch (Some (Pair pos)) l h t o)) /\
    (forall d l h t o,
        NoDup (keys d) ->
        (forall e pos, In (e, pos) d -> exists neg, gen pos (Some e) = inr neg) ->
        fst (_sample gen self (mkMiniBatch (Some (PairMapping d)) l h t o)) =
        if forallb (relation_reshapes gen (output_format self)
                                      (negative_ratio self)) d
        then inr tt else inl RuntimeError).
Proof.
  intros gen self Hrec. split.
  - intros pos neg l h t o. now apply sample_pair_shape_check.
  - intros d l h t o. now apply sample_mapping_shape_check.
Qed.

Lemma NoDup_two_relations : NoDup (keys two_relations).
Proof.
  repeat constructor; simpl; intuition discriminate.
Defined.

Lemma NoDup_with_empty_relation : NoDup (keys with_empty_relation).
Proof.
  repeat constructor; simpl; intuition discriminate.
Defined.

(** One negative for two positives at ratio 2 cannot be reshaped; at ratio 1
    under INDEPENDENT nothing is checked. *)
Lemma only_reshape_rejects_lengths_witness :
  fst (_sample (fixed_negatives ([9%Z], [8%Z]))
               (mkNegativeSampler 2 CONDITIONED)
               (fresh_minibatch (Pair two_positives))) = inl RuntimeError /\
  fst (_sample (fixed_negatives ([9%Z], [8%Z]))
               (mkNegativeSampler 2 CONDITIONED)
               (fresh_minibatch (PairMapping two_relations))) =
  inl RuntimeError.
Proof.
  destruct (only_reshape_rejects_lengths
              (fixed_negatives ([9%Z], [8%Z]))
              (mkNegativeSampler 2 CONDITIONED) eq_refl) as [Hp Hm].
  split.
  - exact (proj1 (Hp two_positives ([9%Z], [8%Z]) None None None [] eq_refl)).
  - apply (Hm two_relations None None None [] NoDup_two_relations).
    intros e pos _. exists ([9%Z], [8%Z]). reflexivity.
Defined.

(** C1, as the claim states it, fails.  One negative pair for two positives at
    ratio 1 is concatenated and labelled under INDEPENDENT; four sources and
    two destinations for two positives at ratio 2 are reshaped under
    CONDITIONED into a [2 x 2] head and a [1 x 2] tail.  Neither call reports
    an error. *)
Lemma count_mismatch_goes_unreported :
  (numel (fst ([9%Z], [8%Z])) <> numel (fst two_positives) * 1)%Z /\
  _sample (fixed_negatives ([9%Z], [8%Z]))
          (mkNegativeSampler 1 INDEPENDENT)
          (fresh_minibatch (Pair two_positives)) =
  (inr tt,
   mkMiniBatch (Some (Pair ([1; 2; 9]%Z, [3; 4; 8]%Z)))
               (Some (Labels [1; 1; 0]%Z)) None None []) /\
  (numel (snd ([9; 10; 11; 12]%Z, [8; 7]%Z)) <> numel (fst two_positives) * 2)%Z /\
  _sample (fixed_negatives ([9; 10; 11; 12]%Z, [8; 7]%Z))
          (mkNegativeSampler 2 CONDITIONED)
          (fresh_minibatch (Pair two_positives)) =
  (inr tt,
   mkMiniBatch (Some (Pair two_positives)) None
               (Some (Reshaped (mkTensor2 2 2 [9; 10; 11; 12]%Z)))
               (Some (Reshaped (mkTensor2 1 2 [8; 7]%Z))) []).
Proof.
  repeat split; try reflexivity; vm_compute; discriminate.
Qed.

(** * INDEPENDENT *)

(** C2. Under INDEPENDENT, once the generator has returned for every
    relation, the call returns normally and each relation's [node_pair] is
    the positive sources followed by the negative sources, paired with the
    positive destinations followed by the negative destinations; its [label]
    is one 1 per positive followed by one 0 per negative, so that when the
    generator returned [n * k] negatives for the relation's [n] positives the
    label has length [n * (1 + k)], starts with [n] ones, continues with
    [n * k] zeros and sums to [n].  This holds for the bare pair and for every
    entry of a mapping. *)
Theorem independent_concatenates_and_labels :
  forall (gen : NodePairs -> option string -> Exc + NodePairs)
         (self : NegativeSampler),
    output_format self = INDEPENDENT ->
    (forall ps pd ns nd l h t o,
        gen (ps, pd) None = inr (ns, nd) ->
        _sample gen self (mkMiniBatch (Some (Pair (ps, pd))) l h t o) =
        (inr tt, mkMiniBatch (Some (Pair (ps ++ ns, pd ++ nd)))
                             (Some (Labels (ones_like ps ++ zeros_like ns)))
                             h t o) /\
        (numel ns = (numel ps * negative_ratio self)%Z ->
         label_layout (length ps) (negative_ratio self)
                      (ones_like ps ++ zeros_like ns))) /\
    (forall d l h t o,
        NoDup (keys d) ->
        (forall e pos, In (e, pos) d -> exists neg, gen pos (Some e) = inr neg) ->
        exists npd lbd,
          _sample gen self (mkMiniBatch (Some (PairMapping d)) l h t o) =
          (inr tt, mkMiniBatch (Some (PairMapping npd))
                               (Some (LabelMapping lbd)) h t o) /\
          forall e ps pd ns nd,
            In (e, (ps, pd)) d ->
            gen (ps, pd) (Some e) = inr (ns, nd) ->
            dict_get npd e = Some (ps ++ ns, pd ++ nd) /\
            dict_get lbd e = Some (ones_like ps ++ zeros_like ns) /\
            (numel ns = (numel ps * negative_ratio self)%Z ->
             label_layout (length ps) (negative_ratio self)
                          (ones_like ps ++ zeros_like ns))).
Proof.
  intros gen self Hf. split.
  - intros ps pd ns nd l h t o Hg.
    rewrite sample_pair, Hg, collate_pair_independent by assumption.
    split; [reflexivity|]. apply label_layout_collate.
  - intros d l h t o Hnd Hgen.
    destruct (@sample_mapping_independent_ok gen self d l h t o Hf Hnd Hgen)
      as (out & Hk & Hrun & Hout).
    exists (dict_map fst out), (dict_map snd out). split; [exact Hrun|].
    intros e ps pd ns nd Hin Hg.
    destruct (Hout e (ps, pd) Hin) as (neg & Hg' & Hget).
    rewrite Hg in Hg'. inversion Hg'; subst neg.
    rewrite !dict_get_dict_map, Hget. simpl.
    split; [reflexivity|]. split; [reflexivity|].
    apply label_layout_collate.
Qed.

(** Two positives at ratio 1, and relations [A], [B] with one positive each. *)
Lemma independent_concatenates_and_labels_witness :
  (_sample (block_negatives 1) (mkNegativeSampler 1 INDEPENDENT)
           (fresh_minibatch (Pair two_positives)) =
   (inr tt, mkMiniBatch (Some (Pair ([1; 2; 100; 101]%Z, [3; 4; 200; 201]%Z)))
                        (Some (Labels [1; 1; 0; 0]%Z)) None None []) /\
   label_layout 2 1 [1; 1; 0; 0]%Z) /\
  (exists npd lbd,
      _sample (block_negatives 1) (mkNegativeSampler 1 INDEPENDENT)
              (fresh_minibatch (PairMapping two_relations)) =
      (inr tt, mkMiniBatch (Some (PairMapping npd)) (Some (LabelMapping lbd))
                           None None []) /\
      dict_get npd "B" = Some ([3; 100]%Z, [4; 200]%Z) /\
      dict_get lbd "B" = Some [1; 0]%Z /\
      label_layout 1 1 [1; 0]%Z).
Proof.
  destruct (independent_concatenates_and_labels
              (block_negatives 1) (mkNegativeSampler 1 INDEPENDENT) eq_refl)
    as [Hp Hm].
  split.
  - destruct (Hp [1; 2]%Z [3; 4]%Z [100; 101]%Z [200; 201]%Z None None None []
                 eq_refl) as [Hrun Hlay].
    split; [exact Hrun|]. exact (Hlay eq_refl).
  - destruct (Hm two_relations None None None [] NoDup_two_relations)
      as (npd & lbd & Hrun & Hrel).
    { intros e pos _. eexists. reflexivity. }
    exists npd, lbd. split; [exact Hrun|].
    destruct (Hrel "B"%string [3]%Z [4]%Z [100]%Z [200]%Z) as (Hn & Hl & Hlay).
    { simpl. auto. }
    { reflexivity. }
    split; [exact Hn|]. split; [exact Hl|]. exact (Hlay eq_refl).
Defined.

(** * CONDITIONED, HEAD_CONDITIONED, TAIL_CONDITIONED *)

Lemma reshape_conditioned ns nd n k :
  (0 < k)%Z -> numel ns = (Z.of_nat n * k)%Z -> numel nd = (Z.of_nat n * k)%Z ->
  reshape_negatives CONDITIONED k (ns, nd) =
  inr (Some (mkTensor2 (Z.of_nat n) k ns), Some (mkTensor2 (Z.of_nat n) k nd)).
Proof.
  intros Hk Hs Hd. simpl.
  destruct (view_row_major ns n Hk Hs) as [-> _].
  now destruct (view_row_major nd n Hk Hd) as [-> _].
Qed.

Lemma reshape_head_conditioned ns nd n k :
  (0 < k)%Z -> numel ns = (Z.of_nat n * k)%Z ->
  reshape_negatives HEAD_CONDITIONED k (ns, nd) =
  inr (Some (mkTensor2 (Z.of_nat n) k ns), None).
Proof.
  intros Hk Hs. simpl. now destruct (view_row_major ns n Hk Hs) as [-> _].
Qed.

Lemma reshape_tail_conditioned ns nd n k :
  (0 < k)%Z -> numel nd = (Z.of_nat n * k)%Z ->
  reshape_negatives TAIL_CONDITIONED k (ns, nd) =
  inr (None, Some (mkTensor2 (Z.of_nat n) k nd)).
Proof.
  intros Hk Hd. simpl. now destruct (view_row_major nd n Hk Hd) as [-> _].
Qed.

(** C3. Under CONDITIONED with a positive ratio [k], when the generator
    returns flat sequences of length [n * k] for a relation with [n]
    positives, the call returns normally and the relation's [negative_head]
    and [negative_tail] have shape [[n, k]], their element [[i, j]] being the
    flat element at index [i * k + j] of the generated sources and
    destinations; this holds for the bare pair and for every entry of a
    mapping. *)
Theorem conditioned_reshapes_row_major :
  forall (gen : NodePairs -> option string -> Exc + NodePairs)
         (self : NegativeSampler),
    output_format self = CONDITIONED ->
    (0 < negative_ratio self)%Z ->
    (forall ps pd ns nd l h t o,
        gen (ps, pd) None = inr (ns, nd) ->
        numel ns = (numel ps * negative_ratio self)%Z ->
        numel nd = (numel ps * negative_ratio self)%Z ->
        exists hd tl,
          _sample gen self (mkMiniBatch (Some (Pair (ps, pd))) l h t o) =
          (inr tt, mkMiniBatch (Some (Pair (ps, pd))) l
                               (Some (Reshaped hd)) (Some (Reshaped tl)) o) /\
          row_major (length ps) (negative_ratio self) ns hd /\
          row_major (length ps) (negative_ratio self) nd tl) /\
    (forall d l h t o,
        NoDup (keys d) ->
        (forall e ps pd, In (e, (ps, pd)) d ->
           exists ns nd, gen (ps, pd) (Some e) = inr (ns, nd) /\
                         numel ns = (numel ps * negative_ratio self)%Z /\
                         numel nd = (numel ps * negative_ratio self)%Z) ->
        exists hds tls,
          _sample gen self (mkMiniBatch (Some (PairMapping d)) l h t o) =
          (inr tt, mkMiniBatch (Some (PairMapping d)) l
                               (Some (NegMapping hds)) (Some (NegMapping tls))
                               o) /\
          forall e ps pd, In (e, (ps, pd)) d ->
            exists ns nd hd tl,
              gen (ps, pd) (Some e) = inr (ns, nd) /\
              dict_get hds e = Some (Some hd) /\
              dict_get tls e = Some (Some tl) /\
              row_major (length ps) (negative_ratio self) ns hd /\
              row_major (length ps) (negative_ratio self) nd tl).
Proof.
  intros gen self Hf Hk.
  assert (Hni : output_format self <> INDEPENDENT) by (rewrite Hf; discriminate).
  split.
  - intros ps pd ns nd l h t o Hg Hs Hd.
    rewrite sample_pair, Hg, collate_pair_conditioned by assumption.
    rewrite Hf, (reshape_conditioned _ _ (length ps) Hk Hs Hd).
    eexists _, _. split; [reflexivity|].
    split; now apply view_row_major.
  - intros d l h t o Hnd Hgen.
    destruct (@sample_mapping_conditioned_ok gen self d l h t o Hni Hnd)
      as (out & _ & Hrun & Hout).
    { intros e [ps pd] Hin.
      destruct (Hgen e ps pd Hin) as (ns & nd & Hg & Hs & Hd).
      unfold step_conditioned. rewrite Hg, Hf.
      rewrite (reshape_conditioned _ _ (length ps) Hk Hs Hd). eauto. }
    rewrite Hf in Hrun.
    exists (dict_map fst out), (dict_map snd out). split; [exact Hrun|].
    intros e ps pd Hin.
    destruct (Hout e (ps, pd) Hin) as (a & Hstep & Hget).
    destruct (Hgen e ps pd Hin) as (ns & nd & Hg & Hs & Hd).
    unfold step_conditioned in Hstep. rewrite Hg, Hf in Hstep.
    rewrite (reshape_conditioned _ _ (length ps) Hk Hs Hd) in Hstep.
    inversion Hstep; subst a.
    eexists ns, nd, _, _. rewrite !dict_get_dict_map, Hget. simpl.
    split; [exact Hg|]. split; [reflexivity|]. split; [reflexivity|].
    split; now apply view_row_major.
Qed.

(** Two positives at ratio 3, and relations [A], [B] with one positive each. *)
Lemma conditioned_reshapes_row_major_witness :
  (exists hd tl,
      _sample (block_negatives 3) (mkNegativeSampler 3 CONDITIONED)
              (fresh_minibatch (Pair two_positives)) =
      (inr tt, mkMiniBatch (Some (Pair two_positives)) None
                           (Some (Reshaped hd)) (Some (Reshaped tl)) []) /\
      row_major 2 3 [100; 100; 100; 101; 101; 101]%Z hd /\
      row_major 2 3 [200; 200; 200; 201; 201; 201]%Z tl) /\
  (exists hds tls,
      _sample (block_negatives 3) (mkNegativeSampler 3 CONDITIONED)
              (fresh_minibatch (PairMapping two_relations)) =
      (inr tt, mkMiniBatch (Some (PairMapping two_relations)) None
                           (Some (NegMapping hds)) (Some (NegMapping tls)) []) /\
      forall e ps pd, In (e, (ps, pd)) two_relations ->
        exists ns nd hd tl,
          block_negatives 3 (ps, pd) (Some e) = inr (ns, nd) /\
          dict_get hds e = Some (Some hd) /\
          dict_get tls e = Some (Some tl) /\
          row_major (length ps) 3 ns hd /\
          row_major (length ps) 3 nd tl).
Proof.
  destruct (conditioned_reshapes_row_major
              (block_negatives 3) (mkNegativeSampler 3 CONDITIONED)
              eq_refl eq_refl) as [Hp Hm].
  split.
  - exact (Hp [1; 2]%Z [3; 4]%Z _ _ None None None [] eq_refl eq_refl eq_refl).
  - apply (Hm two_relations None None None [] NoDup_two_relations).
    intros e ps pd Hin. simpl in Hin.
    destruct Hin as [Heq|[Heq|[]]]; inversion Heq; subst;
      eexists _, _; repeat split; reflexivity.
Defined.

Section OneSided.

Variable gen : NodePairs -> option string -> Exc + NodePairs.
Variable k : Z.
Hypothesis Hk : (0 < k)%Z.

Lemma head_conditioned_pair ps pd ns nd l h t o :
  gen (ps, pd) None = inr (ns, nd) ->
  numel ns = (numel ps * k)%Z ->
  exists hd,
    _sample gen (mkNegativeSampler k HEAD_CONDITIONED)
            (mkMiniBatch (Some (Pair (ps, pd))) l h t o) =
    (inr tt, mkMiniBatch (Some (Pair (ps, pd))) l (Some (Reshaped hd)) None o) /\
    row_major (length ps) k ns hd.
Proof.
  intros Hg Hs.
  rewrite sample_pair, Hg, collate_pair_conditioned by discriminate.
  cbn [output_format negative_ratio].
  rewrite (reshape_head_conditioned _ nd (length ps) Hk Hs).
  eexists. split; [reflexivity|]. now apply view_row_major.
Qed.

Lemma tail_conditioned_pair ps pd ns nd l h t o :
  gen (ps, pd) None = inr (ns, nd) ->
  numel nd = (numel ps * k)%Z ->
  exists tl,
    _sample gen (mkNegativeSampler k TAIL_CONDITIONED)
            (mkMiniBatch (Some (Pair (ps, pd))) l h t o) =
    (inr tt, mkMiniBatch (Some (Pair (ps, pd))) l None (Some (Reshaped tl)) o) /\
    row_major (length ps) k nd tl.
Proof.
  intros Hg Hd.
  rewrite sample_pair, Hg, collate_pair_conditioned by discriminate.
  cbn [output_format negative_ratio].
  rewrite (reshape_tail_conditioned ns _ (length ps) Hk Hd).
  eexists. split; [reflexivity|]. now apply view_row_major.
Qed.

Lemma head_conditioned_mapping d l h t o :
  NoDup (keys d) ->
  (forall e ps pd, In (e, (ps, pd)) d ->
     exists ns nd, gen (ps, pd) (Some e) = inr (ns, nd) /\
                   numel ns = (numel ps * k)%Z) ->
  exists hds,
    _sample gen (mkNegativeSampler k HEAD_CONDITIONED)
            (mkMiniBatch (Some (PairMapping d)) l h t o) =
    (inr tt, mkMiniBatch (Some (PairMapping d)) l (Some (NegMapping hds))
                         None o) /\
    forall e ps pd, In (e, (ps, pd)) d ->
      exists ns nd hd,
        gen (ps, pd) (Some e) = inr (ns, nd) /\
        dict_get hds e = Some (Some hd) /\
        row_major (length ps) k ns hd.
Proof.
  intros Hnd Hgen.
  destruct (@sample_mapping_conditioned_ok
              gen (mkNegativeSampler k HEAD_CONDITIONED) d l h t o
              ltac:(discriminate) Hnd) as (out & _ & Hrun & Hout).
  { intros e [ps pd] Hin. destruct (Hgen e ps pd Hin) as (ns & nd & Hg & Hs).
    unfold step_conditioned. cbn [output_format negative_ratio]. rewrite Hg.
    rewrite (reshape_head_conditioned _ nd (length ps) Hk Hs). eauto. }
  exists (dict_map fst out). split; [exact Hrun|].
  intros e ps pd Hin.
  destruct (Hout e (ps, pd) Hin) as (a & Hstep & Hget).
  destruct (Hgen e ps pd Hin) as (ns & nd & Hg & Hs).
  unfold step_conditioned in Hstep. cbn [output_format negative_ratio] in Hstep.
  rewrite Hg, (reshape_head_conditioned _ nd (length ps) Hk Hs) in Hstep.
  inversion Hstep; subst a.
  eexists ns, nd, _. rewrite dict_get_dict_map, Hget. simpl.
  split; [exact Hg|]. split; [reflexivity|]. now apply view_row_major.
Qed.

Lemma tail_conditioned_mapping d l h t o :
  NoDup (keys d) ->
  (forall e ps pd, In (e, (ps, pd)) d ->
     exists ns nd, gen (ps, pd) (Some e) = inr (ns, nd) /\
                   numel nd = (numel ps * k)%Z) ->
  exists tls,
    _sample gen (mkNegativeSampler k TAIL_CONDITIONED)
            (mkMiniBatch (Some (PairMapping d)) l h t o) =
    (inr tt, mkMiniBatch (Some (PairMapping d)) l None
                         (Some (NegMapping tls)) o) /\
    forall e ps pd, In (e, (ps, pd)) d ->
      exists ns nd tl,
        gen (ps, pd) (Some e) = inr (ns, nd) /\
        dict_get tls e = Some (Some tl) /\
        row_major (length ps) k nd tl.
Proof.
  intros Hnd Hgen.
  destruct (@sample_mapping_conditioned_ok
              gen (mkNegativeSampler k TAIL_CONDITIONED) d l h t o
              ltac:(discriminate) Hnd) as (out & _ & Hrun & Hout).
  { intros e [ps pd] Hin. destruct (Hgen e ps pd Hin) as (ns & nd & Hg & Hd).
    unfold step_conditioned. cbn [output_format negative_ratio]. rewrite Hg.
    rewrite (reshape_tail_conditioned ns _ (length ps) Hk Hd). eauto. }
  exists (dict_map snd out). split; [exact Hrun|].
  intros e ps pd Hin.
  destruct (Hout e (ps, pd) Hin) as (a & Hstep & Hget).
  destruct (Hgen e ps pd Hin) as (ns & nd & Hg & Hd).
  unfold step_conditioned in Hstep. cbn [output_format negative_ratio] in Hstep.
  rewrite Hg, (reshape_tail_conditioned ns _ (length ps) Hk Hd) in Hstep.
  inversion Hstep; subst a.
  eexists ns, nd, _. rewrite dict_get_dict_map, Hget. simpl.
  split; [exact Hg|]. split; [reflexivity|]. now apply view_row_major.
Qed.

End OneSided.

(** C4. Under HEAD_CONDITIONED with a positive ratio [k], after the transform
    [negative_tail] is [None] and [negative_head] holds the [[n, k]] reshape of
    the generated sources (for a mapping: a mapping holding the reshape of
    every relation); under TAIL_CONDITIONED [negative_head] is [None] and
    [negative_tail] holds the reshape of the generated destinations.  Both hold
    for a bare pair and for a mapping, whatever the two fields held before. *)
Theorem one_sided_formats_clear_other_side :
  forall (gen : NodePairs -> option string -> Exc + NodePairs) (k : Z),
    (0 < k)%Z ->
    (forall ps pd ns nd l h t o,
        gen (ps, pd) None = inr (ns, nd) ->
        numel ns = (numel ps * k)%Z ->
        exists hd,
          _sample gen (mkNegativeSampler k HEAD_CONDITIONED)
                  (mkMiniBatch (Some (Pair (ps, pd))) l h t o) =
          (inr tt, mkMiniBatch (Some (Pair (ps, pd))) l
                               (Some (Reshaped hd)) None o) /\
          row_major (length ps) k ns hd) /\
    (forall d l h t o,
        NoDup (keys d) ->
        (forall e ps pd, In (e, (ps, pd)) d ->
           exists ns nd, gen (ps, pd) (Some e) = inr (ns, nd) /\
                         numel ns = (numel ps * k)%Z) ->
        exists hds,
          _sample gen (mkNegativeSampler k HEAD_CONDITIONED)
                  (mkMiniBatch (Some (PairMapping d)) l h t o) =
          (inr tt, mkMiniBatch (Some (PairMapping d)) l
                               (Some (NegMapping hds)) None o) /\
          forall e ps pd, In (e, (ps, pd)) d ->
            exists ns nd hd,
              gen (ps, pd) (Some e) = inr (ns, nd) /\
              dict_get hds e = Some (Some hd) /\
              row_major (length ps) k ns hd) /\
    (forall ps pd ns nd l h t o,
        gen (ps, pd) None = inr (ns, nd) ->
        numel nd = (numel ps * k)%Z ->
        exists tl,
          _sample gen (mkNegativeSampler k TAIL_CONDITIONED)
                  (mkMiniBatch (Some (Pair (ps, pd))) l h t o) =
          (inr tt, mkMiniBatch (Some (Pair (ps, pd))) l None
                               (Some (Reshaped tl)) o) /\
          row_major (length ps) k nd tl) /\
    (forall d l h t o,
        NoDup (keys d) ->
        (forall e ps pd, In (e, (ps, pd)) d ->
           exists ns nd, gen (ps, pd) (Some e) = inr (ns, nd) /\
                         numel nd = (numel ps * k)%Z) ->
        exists tls,
          _sample gen (mkNegativeSampler k TAIL_CONDITIONED)
                  (mkMiniBatch (Some (PairMapping d)) l h t o) =
          (inr tt, mkMiniBatch (Some (PairMapping d)) l None
                               (Some (NegMapping tls)) o) /\
          forall e ps pd, In (e, (ps, pd)) d ->
            exists ns nd tl,
              gen (ps, pd) (Some e) = inr (ns, nd) /\
              dict_get tls e = Some (Some tl) /\
              row_major (length ps) k nd tl).
Proof.
  intros gen k Hk. split; [|split; [|split]].
  - intros ps pd ns nd l h t o. now apply head_conditioned_pair.
  - intros d l h t o. now apply head_conditioned_mapping.
  - intros ps pd ns nd l h t o. now apply tail_conditioned_pair.
  - intros d l h t o. now apply tail_conditioned_mapping.
Qed.

(** The two relations [A] and [B] at ratio 1 under HEAD_CONDITIONED, on a
    minibatch whose [negative_tail] held a mapping before the call. *)
Lemma one_sided_formats_clear_other_side_witness :
  exists hds,
    _sample (block_negatives 1) (mkNegativeSampler 1 HEAD_CONDITIONED)
            (mkMiniBatch (Some (PairMapping two_relations)) None None
                         (Some (NegMapping [])) []) =
    (inr tt, mkMiniBatch (Some (PairMapping two_relations)) None
                         (Some (NegMapping hds)) None []) /\
    forall e ps pd, In (e, (ps, pd)) two_relations ->
      exists ns nd hd,
        block_negatives 1 (ps, pd) (Some e) = inr (ns, nd) /\
        dict_get hds e = Some (Some hd) /\
        row_major (length ps) 1 ns hd.
Proof.
  destruct (@one_sided_formats_clear_other_side (block_negatives 1) 1%Z eq_refl)
    as (_ & Hm & _ & _).
  apply (Hm two_relations None None (Some (NegMapping [])) []
            NoDup_two_relations).
  intros e ps pd Hin. simpl in Hin.
  destruct Hin as [Heq|[Heq|[]]]; inversion Heq; subst;
    eexists _, _; split; reflexivity.
Defined.

(** * Relations of a mapping *)

Lemma numel_zero (t : Tensor) : numel t = 0%Z -> t = [].
Proof. destruct t; [reflexivity|]. unfold numel. simpl. lia. Qed.

Lemma divisible_count (flat : Tensor) (n : nat) (k : Z) :
  (0 < k)%Z -> numel flat = (Z.of_nat n * k)%Z -> divisible k flat = true.
Proof.
  intros Hk Hn. unfold divisible. rewrite Hn, Z_mod_mult.
  apply andb_true_iff. split; [now apply Z.ltb_lt|reflexivity].
Qed.

Lemma reshape_ok_count fmt k ns nd n :
  recognized fmt = true -> (0 < k)%Z ->
  numel ns = (Z.of_nat n * k)%Z -> numel nd = (Z.of_nat n * k)%Z ->
  reshape_ok fmt k (ns, nd) = true.
Proof.
  intros Hr Hk Hs Hd. destruct fmt; simpl; try discriminate; auto;
    rewrite ?(divisible_count ns n Hk Hs), ?(divisible_count nd n Hk Hd);
    reflexivity.
Qed.

Lemma view_empty k : (0 < k)%Z -> view [] k = inr (mkTensor2 0 k []).
Proof.
  intros Hk. now destruct (view_row_major [] 0 Hk eq_refl) as [-> _].
Qed.

Section Relations.

Variable gen : NodePairs -> option string -> Exc + NodePairs.
Variable self : NegativeSampler.

Lemma sample_mapping_same_relations d l h t o mb' :
  NoDup (keys d) ->
  _sample gen self (mkMiniBatch (Some (PairMapping d)) l h t o) = (inr tt, mb') ->
  same_relations (output_format self) d mb'.
Proof.
  intros Hnd.
  destruct (independent_or_not (output_format self)) as [Hf|Hf].
  - rewrite sample_mapping_independent by assumption. cbv zeta.
    destruct (run_items (step_independent gen) d) as [out [x|]] eqn:Hrun;
      simpl; intros H; inversion H; subst; clear H.
    pose proof (@run_items_success_keys _ _ d out Hrun) as Hk.
    rewrite Hf. simpl. eexists _, _. split; [reflexivity|].
    split; [reflexivity|].
    rewrite (@keys_length _ _ out d Hk), skipn_all, app_nil_r.
    now rewrite !keys_dict_map.
  - rewrite sample_mapping_conditioned by assumption. cbv zeta.
    destruct (run_items _ d) as [out [x|]] eqn:Hrun;
      simpl; intros H; inversion H; subst; clear H.
    pose proof (@run_items_success_keys _ _ d out Hrun) as Hk.
    unfold same_relations.
    destruct (output_format self); try congruence; simpl;
      repeat eexists; rewrite ?keys_dict_map; auto.
Qed.

Lemma sample_mapping_empty_relations d l h t o :
  NoDup (keys d) ->
  recognized (output_format self) = true ->
  (0 < negative_ratio self)%Z ->
  (forall e ps pd, In (e, (ps, pd)) d ->
     exists ns nd, gen (ps, pd) (Some e) = inr (ns, nd) /\
                   numel ns = (numel ps * negative_ratio self)%Z /\
                   numel nd = (numel ps * negative_ratio self)%Z) ->
  exists mb',
    _sample gen self (mkMiniBatch (Some (PairMapping d)) l h t o) =
    (inr tt, mb') /\
    forall e, In (e, ([], [])) d ->
              empty_entry (output_format self) (negative_ratio self) e mb'.
Proof.
  intros Hnd Hrec Hk Hgen.
  assert (Hempty : forall e, In (e, ([], [])) d ->
                             gen ([], []) (Some e) = inr ([], [])).
  { intros e Hin. destruct (Hgen e [] [] Hin) as (ns & nd & Hg & Hs & Hd).
    simpl in Hs, Hd. apply numel_zero in Hs, Hd. now subst. }
  destruct (independent_or_not (output_format self)) as [Hf|Hf].
  - destruct (@sample_mapping_independent_ok gen self d l h t o Hf Hnd)
      as (out & _ & Hrun & Hout).
    { intros e [ps pd] Hin. destruct (Hgen e ps pd Hin) as (ns & nd & Hg & _).
      eauto. }
    eexists. split; [exact Hrun|]. intros e Hin. rewrite Hf. simpl.
    destruct (Hout e _ Hin) as (neg & Hg & Hget).
    rewrite (Hempty e Hin) in Hg. inversion Hg; subst neg.
    eexists _, _. split; [reflexivity|]. split; [reflexivity|].
    rewrite !dict_get_dict_map, Hget. now split.
  - destruct (@sample_mapping_conditioned_ok gen self d l h t o Hf Hnd)
      as (out & _ & Hrun & Hout).
    { intros e [ps pd] Hin.
      destruct (Hgen e ps pd Hin) as (ns & nd & Hg & Hs & Hd).
      unfold step_conditioned. rewrite Hg.
      destruct (@reshape_negatives_ok (output_format self)
                  (negative_ratio self) (ns, nd) Hf) as (s & t' & Hre).
      - now apply (@reshape_ok_count _ _ ns nd (length ps)).
      - rewrite Hre. eauto. }
    eexists. split; [exact Hrun|]. intros e Hin.
    destruct (Hout e _ Hin) as (a & Hstep & Hget).
    unfold step_conditioned in Hstep. rewrite (Hempty e Hin) in Hstep.
    destruct (output_format self); try congruence; try discriminate;
      simpl in Hstep; rewrite !(view_empty Hk) in Hstep;
      inversion Hstep; subst a; simpl;
      repeat eexists; rewrite dict_get_dict_map, Hget; reflexivity.
Qed.

End Relations.

(** C6. For a mapping [node_pair] with distinct relations, whenever the
    transform returns normally the mappings it wrote ([node_pair] and [label]
    under INDEPENDENT, [negative_head] and/or [negative_tail] under the
    conditioned formats) have exactly the relations of the input, none added
    and none missing.  With a recognized format, a positive ratio and a
    generator that returns [n * k] negatives for each relation with [n]
    positives, the transform does return normally, and a relation with no
    positive pair has an entry which is empty. *)
Theorem mapping_outputs_keep_relations :
  forall (gen : NodePairs -> option string -> Exc + NodePairs)
         (self : NegativeSampler) (d : dict NodePairs)
         (l : option LabelField) (h t : option NegativeField)
         (o : list (string * Tensor)),
    NoDup (keys d) ->
    (forall mb',
        _sample gen self (mkMiniBatch (Some (PairMapping d)) l h t o) =
        (inr tt, mb') ->
        same_relations (output_format self) d mb') /\
    (recognized (output_format self) = true ->
     (0 < negative_ratio self)%Z ->
     (forall e ps pd, In (e, (ps, pd)) d ->
        exists ns nd, gen (ps, pd) (Some e) = inr (ns, nd) /\
                      numel ns = (numel ps * negative_ratio self)%Z /\
                      numel nd = (numel ps * negative_ratio self)%Z) ->
     exists mb',
       _sample gen self (mkMiniBatch (Some (PairMapping d)) l h t o) =
       (inr tt, mb') /\
       forall e, In (e, ([], [])) d ->
                 empty_entry (output_format self) (negative_ratio self) e mb').
Proof.
  intros gen self d l h t o Hnd. split.
  - intros mb'. now apply sample_mapping_same_relations.
  - intros Hrec Hk Hgen. now apply sample_mapping_empty_relations.
Qed.

(** Relation [A] with two positives and relation [B] with none, at ratio 2
    under CONDITIONED. *)
Lemma mapping_outputs_keep_relations_witness :
  exists mb',
    _sample (block_negatives 2) (mkNegativeSampler 2 CONDITIONED)
            (fresh_minibatch (PairMapping with_empty_relation)) = (inr tt, mb') /\
    same_relations CONDITIONED with_empty_relation mb' /\
    empty_entry CONDITIONED 2 "B" mb'.
Proof.
  destruct (@mapping_outputs_keep_relations
              (block_negatives 2) (mkNegativeSampler 2 CONDITIONED)
              with_empty_relation None None None []
              NoDup_with_empty_relation) as [Hkeys Hrun].
  destruct (Hrun eq_refl eq_refl) as (mb' & Hs & Hempty).
  { intros e ps pd Hin. simpl in Hin.
    destruct Hin as [Heq|[Heq|[]]]; inversion Heq; subst;
      eexists _, _; repeat split; reflexivity. }
  exists mb'. split; [exact Hs|]. split.
  - exact (Hkeys mb' Hs).
  - apply Hempty. simpl. auto.
Defined.

(** * Worked examples *)

(** Two positives at ratio 1 under CONDITIONED: both sides become [2 x 1] and
    [node_pair] stays as it was. *)
Example conditioned_two_positives :
  _sample (fixed_negatives ([9; 10]%Z, [8; 7]%Z))
          (mkNegativeSampler 1 CONDITIONED)
          (fresh_minibatch (Pair two_positives)) =
  (inr tt,
   mkMiniBatch (Some (Pair two_positives)) None
               (Some (Reshaped (mkTensor2 2 1 [9; 10]%Z)))
               (Some (Reshaped (mkTensor2 2 1 [8; 7]%Z))) []).
Proof. reflexivity. Qed.

(** Two relations at ratio 1 under HEAD_CONDITIONED: a head per relation, no
    tail, [node_pair] as it was. *)
Example head_conditioned_two_relations :
  _sample (block_negatives 1) (mkNegativeSampler 1 HEAD_CONDITIONED)
          (fresh_minibatch (PairMapping two_relations)) =
  (inr tt,
   mkMiniBatch (Some (PairMapping two_relations)) None
               (Some (NegMapping [("A"%string, Some (mkTensor2 1 1 [100]%Z));
                                  ("B"%string, Some (mkTensor2 1 1 [100]%Z))]))
               None []).
Proof. reflexivity. Qed.

(** Two relations at ratio 2 under INDEPENDENT: the dictionary held by
    [node_pair] is updated entry by entry while it is iterated. *)
Example independent_two_relations :
  _sample (block_negatives 2) (mkNegativeSampler 2 INDEPENDENT)
          (fresh_minibatch (PairMapping two_relations)) =
  (inr tt,
   mkMiniBatch
     (Some (PairMapping [("A"%string, ([1; 100; 100]%Z, [2; 200; 200]%Z));
                         ("B"%string, ([3; 100; 100]%Z, [4; 200; 200]%Z))]))
     (Some (LabelMapping [("A"%string, [1; 0; 0]%Z); ("B"%string, [1; 0; 0]%Z)]))
     None None []).
Proof. reflexivity. Qed.

(** Without an overriding strategy the transform fails as soon as it asks for
    negatives, with nothing written for a bare pair. *)
Lemma base_strategy_not_implemented self pos l h t o :
  _sample base_sample_with_etype self (mkMiniBatch (Some (Pair pos)) l h t o) =
  (inl NotImplementedError, mkMiniBatch (Some (Pair pos)) l h t o).
Proof. now rewrite sample_pair. Qed.

(** * Further properties of the transform *)

(** ** More on the pass over the entries *)

Lemma run_items_ext {A} (step1 step2 : string -> NodePairs -> Exc + A) items :
  (forall e pos, In (e, pos) items -> step1 e pos = step2 e pos) ->
  run_items step1 items = run_items step2 items.
Proof.
  induction items as [|[e pos] rest IH]; intros Hext; [reflexivity|].
  rewrite !run_items_cons, (Hext e pos) by (simpl; auto).
  rewrite IH; [reflexivity|]. intros e' pos' Hin. apply Hext. simpl. auto.
Qed.

Lemma run_items_app_fail {A} (step : string -> NodePairs -> Exc + A)
      d1 e pos d2 x :
  (forall e' pos', In (e', pos') d1 -> exists a, step e' pos' = inr a) ->
  step e pos = inl x ->
  exists out1,
    run_items step d1 = (out1, None) /\
    run_items step (d1 ++ (e, pos) :: d2) = (out1, Some x).
Proof.
  intros Hok Hfail. induction d1 as [|[e' pos'] d1 IH].
  - exists []. split; [reflexivity|]. simpl. now rewrite Hfail.
  - destruct IH as (out1 & H1 & H2).
    { intros e'' pos'' Hin. apply Hok. simpl. auto. }
    destruct (Hok e' pos') as [a Ha]; [simpl; auto|].
    exists ((e', a) :: out1). simpl. rewrite Ha, H1, H2. now split.
Qed.

Lemma reshape_negatives_error_origin fmt k neg x :
  fmt <> INDEPENDENT ->
  reshape_negatives fmt k neg = inl x ->
  (x = RuntimeError /\ recognized fmt = true) \/
  (x = TypeError /\ recognized fmt = false).
Proof.
  intros Hf Hre. destruct (recognized fmt) eqn:Hrec.
  - left. destruct (reshape_negatives_error _ _ Hrec Hf Hre) as [-> _]. auto.
  - right. destruct fmt; try discriminate. simpl in Hre. inversion Hre. auto.
Qed.

Lemma reshape_negatives_faithful fmt k ns nd s t :
  reshape_negatives fmt k (ns, nd) = inr (s, t) ->
  (forall hd, s = Some hd -> faithful_view k ns hd) /\
  (forall tl, t = Some tl -> faithful_view k nd tl).
Proof.
  assert (Hview : forall flat v, view flat k = inr v -> faithful_view k flat v).
  { intros flat v. unfold view.
    destruct (0 <? k)%Z eqn:Hk; simpl; [|discriminate].
    destruct (numel flat mod k =? 0)%Z eqn:Hm; [|discriminate].
    intros H. inversion H; subst v. unfold faithful_view. simpl.
    apply Z.ltb_lt in Hk. apply Z.eqb_eq in Hm.
    split; [reflexivity|]. split; [reflexivity|].
    rewrite Z.mul_comm. symmetry. apply Z.div_exact; [lia|exact Hm]. }
  destruct fmt; simpl; try discriminate.
  - destruct (view ns k) as [x|v1] eqn:H1; [discriminate|].
    destruct (view nd k) as [x|v2] eqn:H2; [discriminate|].
    intros H; inversion H; subst. split; intros v Hv; inversion Hv; subst; auto.
  - destruct (view ns k) as [x|v1] eqn:H1; [discriminate|].
    intros H; inversion H; subst. split; intros v Hv; inversion Hv; subst; auto.
  - destruct (view nd k) as [x|v2] eqn:H2; [discriminate|].
    intros H; inversion H; subst. split; intros v Hv; inversion Hv; subst; auto.
Qed.

(** ** Errors *)

(** X1. With the base class's [_sample_with_etype], which only raises, the
    transform returns normally only for an empty mapping: a missing
    [node_pair] fails the assertion, and a pair or a mapping with at least one
    relation fails with the not-implemented error, whatever the format. *)
Theorem base_strategy_only_passes_empty_mapping :
  forall (self : NegativeSampler) (np : option NodePairField)
         (l : option LabelField) (h t : option NegativeField)
         (o : list (string * Tensor)),
    fst (_sample base_sample_with_etype self (mkMiniBatch np l h t o)) =
    match np with
    | None => inl AssertionError
    | Some (PairMapping []) => inr tt
    | Some _ => inl NotImplementedError
    end.
Proof.
  intros self np l h t o. destruct np as [[pos|[|[e pos] rest]]|].
  - now rewrite sample_pair.
  - rewrite sample_mapping with (d := []) by reflexivity. reflexivity.
  - rewrite sample_mapping with (d := (e, pos) :: rest) by reflexivity.
    cbn [length]. rewrite for_items_step.
    unfold init_containers. now destruct (output_format self).
  - reflexivity.
Qed.

(** X2. Every error of the transform has one of four origins: the entry
    assertion, when [node_pair] is missing; the generator, whose error is
    passed on; a reshape, under a recognized format other than INDEPENDENT;
    the format check, under an unrecognized format.  In particular no lookup
    of a relation in [node_pair] ever fails. *)
Theorem errors_have_four_origins :
  forall (gen : NodePairs -> option string -> Exc + NodePairs)
         (self : NegativeSampler) (np : option NodePairField)
         (l : option LabelField) (h t : option NegativeField)
         (o : list (string * Tensor)) (x : Exc),
    distinct_relations np ->
    fst (_sample gen self (mkMiniBatch np l h t o)) = inl x ->
    (np = None /\ x = AssertionError) \/
    (exists pos etype, gen pos etype = inl x) \/
    (x = RuntimeError /\ recognized (output_format self) = true /\
     output_format self <> INDEPENDENT) \/
    (x = TypeError /\ recognized (output_format self) = false).
Proof.
  intros gen self np l h t o x Hwf Hx.
  destruct np as [[pos|d]|].
  - rewrite sample_pair in Hx.
    destruct (gen pos None) as [y|neg] eqn:Hg.
    { simpl in Hx. inversion Hx; subst. right; left. eauto. }
    destruct (independent_or_not (output_format self)) as [Hf|Hf].
    { rewrite collate_pair_independent in Hx by assumption. discriminate. }
    rewrite collate_pair_conditioned in Hx by assumption.
    destruct (reshape_negatives (output_format self) (negative_ratio self) neg)
      as [y|[s d]] eqn:Hre; [|discriminate].
    simpl in Hx. inversion Hx; subst y.
    destruct (reshape_negatives_error_origin _ _ Hf Hre) as [[-> Hr]|[-> Hr]];
      [right; right; left; auto|right; right; right; auto].
  - simpl in Hwf.
    destruct (independent_or_not (output_format self)) as [Hf|Hf].
    + rewrite sample_mapping_independent in Hx by assumption.
      cbv zeta in Hx. simpl in Hx.
      destruct (snd (run_items (step_independent gen) d)) as [y|] eqn:Hr;
        [|discriminate].
      simpl in Hx. inversion Hx; subst y.
      apply run_items_failure in Hr. destruct Hr as (e & pos & _ & Hs).
      unfold step_independent in Hs.
      destruct (gen pos (Some e)) as [y|neg] eqn:Hg; [|discriminate].
      inversion Hs; subst. right; left. eauto.
    + rewrite sample_mapping_conditioned in Hx by assumption.
      cbv zeta in Hx.
      destruct (snd (run_items _ d)) as [y|] eqn:Hr; [|discriminate].
      simpl in Hx. inversion Hx; subst y.
      apply run_items_failure in Hr. destruct Hr as (e & pos & _ & Hs).
      unfold step_conditioned in Hs.
      destruct (gen pos (Some e)) as [y|neg] eqn:Hg.
      { inversion Hs; subst. right; left. eauto. }
      destruct (reshape_negatives_error_origin _ _ Hf Hs) as [[-> Hr]|[-> Hr]];
        [right; right; left; auto|right; right; right; auto].
  - simpl in Hx. inversion Hx. auto.
Qed.

(** One negative for two positives at ratio 2 under CONDITIONED: the error is
    the reshape's. *)
Lemma errors_have_four_origins_witness :
  (Some (Pair two_positives) = None /\ RuntimeError = AssertionError) \/
  (exists pos etype, fixed_negatives ([9%Z], [8%Z]) pos etype = inl RuntimeError) \/
  (RuntimeError = RuntimeError /\ recognized CONDITIONED = true /\
   CONDITIONED <> INDEPENDENT) \/
  (RuntimeError = TypeError /\ recognized CONDITIONED = false).
Proof.
  exact (@errors_have_four_origins
           (fixed_negatives ([9%Z], [8%Z])) (mkNegativeSampler 2 CONDITIONED)
           (Some (Pair two_positives)) None None None [] RuntimeError
           I eq_refl).
Defined.

(** X3. For a bare pair a failing transform is atomic: whatever the error and
    the format, the minibatch is left exactly as it was on entry. *)
Theorem pair_failure_leaves_minibatch_untouched :
  forall (gen : NodePairs -> option string -> Exc + NodePairs)
         (self : NegativeSampler) (pos : NodePairs)
         (l : option LabelField) (h t : option NegativeField)
         (o : list (string * Tensor)) (x : Exc),
    fst (_sample gen self (mkMiniBatch (Some (Pair pos)) l h t o)) = inl x ->
    snd (_sample gen self (mkMiniBatch (Some (Pair pos)) l h t o)) =
    mkMiniBatch (Some (Pair pos)) l h t o.
Proof.
  intros gen self pos l h t o x. rewrite sample_pair.
  destruct (gen pos None) as [y|neg]; [reflexivity|].
  destruct (independent_or_not (output_format self)) as [Hf|Hf].
  - rewrite collate_pair_independent by assumption. discriminate.
  - rewrite collate_pair_conditioned by assumption.
    destruct (reshape_negatives _ _ neg) as [y|[s d]]; [reflexivity|discriminate].
Qed.

(** A head already present survives a failed reshape. *)
Lemma pair_failure_leaves_minibatch_untouched_witness :
  snd (_sample (fixed_negatives ([9%Z], [8%Z])) (mkNegativeSampler 2 CONDITIONED)
               (mkMiniBatch (Some (Pair two_positives)) None
                            (Some (Reshaped (mkTensor2 1 1 [5%Z]))) None [])) =
  mkMiniBatch (Some (Pair two_positives)) None
              (Some (Reshaped (mkTensor2 1 1 [5%Z]))) None [].
Proof.
  exact (@pair_failure_leaves_minibatch_untouched
           (fixed_negatives ([9%Z], [8%Z])) (mkNegativeSampler 2 CONDITIONED)
           two_positives None (Some (Reshaped (mkTensor2 1 1 [5%Z]))) None []
           RuntimeError eq_refl).
Defined.

(** ** A failing relation in a mapping *)

Lemma NoDup_keys_prefix {V} (d1 d2 : dict V) :
  NoDup (keys (d1 ++ d2)) -> NoDup (keys d1).
Proof. rewrite keys_app. apply NoDup_app_remove_r. Qed.

(** X4. Under INDEPENDENT the loop stops at the first relation for which the
    generator raises, and passes that error on.  By then the relations before
    it have been collated: their [node_pair] entries hold positives followed
    by negatives and [label] holds exactly these relations; the failing
    relation and the ones after it keep their positive pairs and have no
    label. *)
Theorem independent_mapping_stops_at_first_failure :
  forall (gen : NodePairs -> option string -> Exc + NodePairs)
         (self : NegativeSampler) (d1 d2 : dict NodePairs)
         (e : string) (pos : NodePairs)
         (l : option LabelField) (h t : option NegativeField)
         (o : list (string * Tensor)) (x : Exc),
    output_format self = INDEPENDENT ->
    NoDup (keys (d1 ++ (e, pos) :: d2)) ->
    (forall e' pos', In (e', pos') d1 ->
                     exists neg, gen pos' (Some e') = inr neg) ->
    gen pos (Some e) = inl x ->
    exists out1,
      keys out1 = keys d1 /\
      _sample gen self
              (mkMiniBatch (Some (PairMapping (d1 ++ (e, pos) :: d2))) l h t o) =
      (inl x,
       mkMiniBatch (Some (PairMapping (dict_map fst out1 ++ (e, pos) :: d2)))
                   (Some (LabelMapping (dict_map snd out1))) h t o) /\
      forall e' pos', In (e', pos') d1 ->
        exists neg, gen pos' (Some e') = inr neg /\
                    dict_get out1 e' = Some (collate_independent pos' neg).
Proof.
  intros gen self d1 d2 e pos l h t o x Hf Hnd Hok Hfail.
  destruct (@run_items_app_fail _ (step_independent gen) d1 e pos d2 x)
    as (out1 & H1 & H2).
  { intros e' pos' Hin. destruct (Hok e' pos' Hin) as [neg Hg].
    unfold step_independent. rewrite Hg. eauto. }
  { unfold step_independent. now rewrite Hfail. }
  pose proof (@run_items_success_keys _ _ d1 out1 H1) as Hk.
  exists out1. split; [exact Hk|]. split.
  - rewrite sample_mapping_independent by assumption. cbv zeta.
    rewrite H2. simpl.
    rewrite (@keys_length _ _ out1 d1 Hk), skipn_app, skipn_all, Nat.sub_diag.
    reflexivity.
  - intros e' pos' Hin.
    destruct (@run_items_success_get _ _ d1 out1 e' pos' H1
                (NoDup_keys_prefix _ _ Hnd) Hin) as (a & Hs & Hget).
    destruct (Hok e' pos' Hin) as [neg Hg].
    unfold step_independent in Hs. rewrite Hg in Hs. inversion Hs; subst.
    eauto.
Qed.

(** Relation [A] is collated, relation [B] makes the generator raise. *)
Lemma independent_mapping_stops_at_first_failure_witness :
  exists out1,
    keys out1 = ["A"%string] /\
    _sample (fails_on "B" NotImplementedError) (mkNegativeSampler 1 INDEPENDENT)
            (fresh_minibatch (PairMapping two_relations)) =
    (inl NotImplementedError,
     mkMiniBatch (Some (PairMapping (dict_map fst out1
                                     ++ [("B"%string, ([3]%Z, [4]%Z))])))
                 (Some (LabelMapping (dict_map snd out1))) None None []) /\
    forall e' pos', In (e', pos') [("A"%string, ([1]%Z, [2]%Z))] ->
      exists neg, fails_on "B" NotImplementedError pos' (Some e') = inr neg /\
                  dict_get out1 e' = Some (collate_independent pos' neg).
Proof.
  apply (@independent_mapping_stops_at_first_failure
           (fails_on "B" NotImplementedError) (mkNegativeSampler 1 INDEPENDENT)
           [("A"%string, ([1]%Z, [2]%Z))] [] "B"%string ([3]%Z, [4]%Z)
           None None None [] NotImplementedError eq_refl NoDup_two_relations).
  - intros e' pos' [Heq|[]]. inversion Heq; subst. eexists. reflexivity.
  - reflexivity.
Defined.

(** X5. Under any other format the loop stops at the first relation whose
    generator call or reshape fails, and passes that error on.  By then
    [negative_head] and [negative_tail] are mappings over exactly the relations
    before it; under HEAD_CONDITIONED and TAIL_CONDITIONED the non-selected
    side has not been reset to [None]. *)
Theorem conditioned_mapping_stops_at_first_failure :
  forall (gen : NodePairs -> option string -> Exc + NodePairs)
         (self : NegativeSampler) (d1 d2 : dict NodePairs)
         (e : string) (pos : NodePairs)
         (l : option LabelField) (h t : option NegativeField)
         (o : list (string * Tensor)) (x : Exc),
    output_format self <> INDEPENDENT ->
    NoDup (keys (d1 ++ (e, pos) :: d2)) ->
    (forall e' pos', In (e', pos') d1 ->
       exists a, step_conditioned gen (output_format self) (negative_ratio self)
                                  e' pos' = inr a) ->
    step_conditioned gen (output_format self) (negative_ratio self) e pos
      = inl x ->
    exists out1,
      keys out1 = keys d1 /\
      _sample gen self
              (mkMiniBatch (Some (PairMapping (d1 ++ (e, pos) :: d2))) l h t o) =
      (inl x,
       mkMiniBatch (Some (PairMapping (d1 ++ (e, pos) :: d2))) l
                   (Some (NegMapping (dict_map fst out1)))
                   (Some (NegMapping (dict_map snd out1))) o).
Proof.
  intros gen self d1 d2 e pos l h t o x Hf Hnd Hok Hfail.
  destruct (@run_items_app_fail _ _ d1 e pos d2 x Hok Hfail)
    as (out1 & H1 & H2).
  exists out1. split; [exact (@run_items_success_keys _ _ d1 out1 H1)|].
  rewrite sample_mapping_conditioned by assumption. cbv zeta.
  rewrite H2. reflexivity.
Qed.

(** Under HEAD_CONDITIONED at ratio 2, relation [A] is reshaped and relation
    [B], for which the strategy returns one negative, is not. *)
Lemma conditioned_mapping_stops_at_first_failure_witness :
  exists out1,
    keys out1 = ["A"%string] /\
    _sample uneven_negatives (mkNegativeSampler 2 HEAD_CONDITIONED)
            (fresh_minibatch (PairMapping two_relations)) =
    (inl RuntimeError,
     mkMiniBatch (Some (PairMapping two_relations)) None
                 (Some (NegMapping (dict_map fst out1)))
                 (Some (NegMapping (dict_map snd out1))) []).
Proof.
  apply (@conditioned_mapping_stops_at_first_failure
           uneven_negatives (mkNegativeSampler 2 HEAD_CONDITIONED)
           [("A"%string, ([1]%Z, [2]%Z))] [] "B"%string ([3]%Z, [4]%Z)
           None None None [] RuntimeError ltac:(discriminate)
           NoDup_two_relations).
  - intros e' pos' [Heq|[]]. inversion Heq; subst. eexists. reflexivity.
  - reflexivity.
Defined.

(** ** What the transform asks the generator *)

(** X6. The transform depends on the generator only through its answers for
    the positive pairs of the minibatch as they were on entry: one call without
    an edge type for a bare pair, one call per relation with that relation's
    edge type for a mapping.  Two strategies that agree there give the same
    outcome and the same minibatch. *)
Theorem transform_asks_only_about_input_relations :
  forall (gen1 gen2 : NodePairs -> option string -> Exc + NodePairs)
         (self : NegativeSampler) (np : option NodePairField)
         (l : option LabelField) (h t : option NegativeField)
         (o : list (string * Tensor)),
    distinct_relations np ->
    match np with
    | None => True
    | Some (Pair pos) => gen1 pos None = gen2 pos None
    | Some (PairMapping d) =>
        forall e pos, In (e, pos) d -> gen1 pos (Some e) = gen2 pos (Some e)
    end ->
    _sample gen1 self (mkMiniBatch np l h t o) =
    _sample gen2 self (mkMiniBatch np l h t o).
Proof.
  intros gen1 gen2 self np l h t o Hwf Hext.
  destruct np as [[pos|d]|]; [| |reflexivity].
  - rewrite !sample_pair, Hext. reflexivity.
  - simpl in Hwf.
    destruct (independent_or_not (output_format self)) as [Hf|Hf].
    + rewrite !sample_mapping_independent by assumption.
      rewrite (@run_items_ext _ (step_independent gen1) (step_independent gen2));
        [reflexivity|].
      intros e pos Hin. unfold step_independent. now rewrite (Hext e pos Hin).
    + rewrite !sample_mapping_conditioned by assumption.
      rewrite (@run_items_ext _
                 (step_conditioned gen1 (output_format self) (negative_ratio self))
                 (step_conditioned gen2 (output_format self) (negative_ratio self)));
        [reflexivity|].
      intros e pos Hin. unfold step_conditioned. now rewrite (Hext e pos Hin).
Qed.

(** A strategy that would raise for a relation [C] the minibatch does not have
    is as good as one that never raises. *)
Lemma transform_asks_only_about_input_relations_witness :
  _sample (block_negatives 1) (mkNegativeSampler 1 CONDITIONED)
          (fresh_minibatch (PairMapping two_relations)) =
  _sample (fails_on "C" NotImplementedError) (mkNegativeSampler 1 CONDITIONED)
          (fresh_minibatch (PairMapping two_relations)).
Proof.
  apply (@transform_asks_only_about_input_relations
           (block_negatives 1) (fails_on "C" NotImplementedError)
           (mkNegativeSampler 1 CONDITIONED)
           (Some (PairMapping two_relations)) None None None []
           NoDup_two_relations).
  intros e pos [Heq|[Heq|[]]]; inversion Heq; subst; reflexivity.
Defined.

(** ** Applying the transform again *)



(** X8. Under INDEPENDENT the transform is not idempotent: applied to its own
    result for a bare pair, it takes the earlier negatives for positives.  The
    generator is asked about the concatenated pairs, and the new label has a 1
    for every earlier positive and negative alike, so it sums to their
    number. *)
Theorem independent_twice_relabels_negatives :
  forall (gen : NodePairs -> option string -> Exc + NodePairs)
         (self : NegativeSampler) (ps pd ns1 nd1 ns2 nd2 : Tensor)
         (l : option LabelField) (h t : option NegativeField)
         (o : list (string * Tensor)),
    output_format self = INDEPENDENT ->
    gen (ps, pd) None = inr (ns1, nd1) ->
    gen (ps ++ ns1, pd ++ nd1) None = inr (ns2, nd2) ->
    _sample gen self
            (snd (_sample gen self (mkMiniBatch (Some (Pair (ps, pd))) l h t o))) =
    (inr tt,
     mkMiniBatch (Some (Pair ((ps ++ ns1) ++ ns2, (pd ++ nd1) ++ nd2)))
                 (Some (Labels (ones_like (ps ++ ns1) ++ zeros_like ns2)))
                 h t o) /\
    sum (ones_like (ps ++ ns1) ++ zeros_like ns2) = (numel ps + numel ns1)%Z.
Proof.
  intros gen self ps pd ns1 nd1 ns2 nd2 l h t o Hf Hg1 Hg2. split.
  - rewrite sample_pair, Hg1, collate_pair_independent by assumption.
    cbn [snd fst collate_independent].
    rewrite sample_pair, Hg2, collate_pair_independent by assumption.
    reflexivity.
  - rewrite sum_app, ones_like_repeat, zeros_like_repeat, !sum_repeat.
    unfold numel. rewrite length_app. lia.
Qed.

(** One positive at ratio 1, twice: labels [[1; 0]] become [[1; 1; 0; 0]]. *)
Lemma independent_twice_relabels_negatives_witness :
  _sample (block_negatives 1) (mkNegativeSampler 1 INDEPENDENT)
          (snd (_sample (block_negatives 1) (mkNegativeSampler 1 INDEPENDENT)
                        (fresh_minibatch (Pair ([1]%Z, [2]%Z))))) =
  (inr tt,
   mkMiniBatch (Some (Pair ([1; 100; 100; 101]%Z, [2; 200; 200; 201]%Z)))
               (Some (Labels [1; 1; 0; 0]%Z)) None None []) /\
  sum [1; 1; 0; 0]%Z = 2%Z.
Proof.
  exact (@independent_twice_relabels_negatives
           (block_negatives 1) (mkNegativeSampler 1 INDEPENDENT)
           [1]%Z [2]%Z [100]%Z [200]%Z [100; 101]%Z [200; 201]%Z
           None None None [] eq_refl eq_refl eq_refl).
Defined.

(** ** The shape of [node_pair] *)

Lemma same_shape_refl np : same_shape np np.
Proof. destruct np as [[p|d]|]; simpl; auto. Qed.

(** X9. Whatever the format and the outcome, failures included, the transform
    keeps the shape of [node_pair]: a missing value stays missing, a pair
    stays a pair, and a mapping stays a mapping over the same relations in the
    same order; the in-place updates of INDEPENDENT add, drop and reorder no
    relation. *)
Theorem transform_keeps_node_pair_shape :
  forall (gen : NodePairs -> option string -> Exc + NodePairs)
         (self : NegativeSampler) (np : option NodePairField)
         (l : option LabelField) (h t : option NegativeField)
         (o : list (string * Tensor)),
    distinct_relations np ->
    same_shape np (node_pair (snd (_sample gen self (mkMiniBatch np l h t o)))).
Proof.
  intros gen self np l h t o Hwf.
  destruct (independent_or_not (output_format self)) as [Hf|Hf].
  - destruct np as [[pos|d]|]; [| |exact I].
    + rewrite sample_pair. destruct (gen pos None) as [x|neg]; [exact I|].
      rewrite collate_pair_independent by assumption. exact I.
    + simpl in Hwf. rewrite sample_mapping_independent by assumption.
      cbv zeta. simpl.
      rewrite keys_app, keys_dict_map, run_items_keys.
      unfold keys at 2. rewrite <- skipn_map. apply firstn_skipn.
  - pose proof (sample_frame gen self (mkMiniBatch np l h t o)) as [_ Hfr].
    destruct (output_format self); try congruence;
      destruct Hfr as [-> _]; apply same_shape_refl.
Qed.

(** The generator raises at relation [B], after [A] was updated in place. *)
Lemma transform_keeps_node_pair_shape_witness :
  same_shape (Some (PairMapping two_relations))
    (node_pair
       (snd (_sample (fails_on "B" NotImplementedError)
                     (mkNegativeSampler 1 INDEPENDENT)
                     (fresh_minibatch (PairMapping two_relations))))).
Proof.
  exact (@transform_keeps_node_pair_shape
           (fails_on "B" NotImplementedError) (mkNegativeSampler 1 INDEPENDENT)
           (Some (PairMapping two_relations)) None None None []
           NoDup_two_relations).
Defined.

(** ** Reshapes *)

(** X10. Whatever the lengths the generator returned, a reshape that the
    transform stored is a view with [negative_ratio] columns over exactly the
    generated sequence: no negative is dropped, repeated or moved, and the
    rows times the columns give its length.  This holds for the head and the
    tail of a bare pair and of every relation of a mapping. *)
Theorem stored_reshapes_keep_every_negative :
  forall (gen : NodePairs -> option string -> Exc + NodePairs)
         (self : NegativeSampler),
    output_format self <> INDEPENDENT ->
    (forall pos ns nd l h t o mb',
        gen pos None = inr (ns, nd) ->
        _sample gen self (mkMiniBatch (Some (Pair pos)) l h t o) = (inr tt, mb') ->
        (forall hd, negative_head mb' = Some (Reshaped hd) ->
                    faithful_view (negative_ratio self) ns hd) /\
        (forall tl, negative_tail mb' = Some (Reshaped tl) ->
                    faithful_view (negative_ratio self) nd tl)) /\
    (forall d l h t o mb',
        NoDup (keys d) ->
        _sample gen self (mkMiniBatch (Some (PairMapping d)) l h t o) =
        (inr tt, mb') ->
        forall e pos ns nd,
          In (e, pos) d -> gen pos (Some e) = inr (ns, nd) ->
          (forall hds hd,
              negative_head mb' = Some (NegMapping hds) ->
              dict_get hds e = Some (Some hd) ->
              faithful_view (negative_ratio self) ns hd) /\
          (forall tls tl,
              negative_tail mb' = Some (NegMapping tls) ->
              dict_get tls e = Some (Some tl) ->
              faithful_view (negative_ratio self) nd tl)).
Proof.
  intros gen self Hf. split.
  - intros pos ns nd l h t o mb' Hg.
    rewrite sample_pair, Hg, collate_pair_conditioned by assumption.
    destruct (reshape_negatives _ _ (ns, nd)) as [y|[s d]] eqn:Hre;
      [discriminate|].
    intros H; inversion H; subst mb'. simpl.
    destruct (reshape_negatives_faithful _ _ _ _ Hre) as [Hh Ht].
    split; intros v Hv.
    + apply Hh. destruct s; simpl in Hv; inversion Hv. reflexivity.
    + apply Ht. destruct d; simpl in Hv; inversion Hv. reflexivity.
  - intros d l h t o mb' Hnd.
    rewrite sample_mapping_conditioned by assumption. cbv zeta.
    set (step := step_conditioned gen (output_format self) (negative_ratio self)).
    destruct (run_items step d) as [out r] eqn:Hrun. simpl.
    destruct r as [y|]; [discriminate|].
    intros H; inversion H; subst mb'. clear H.
    intros e pos ns nd Hin Hg.
    destruct (@run_items_success_get _ step d out e pos Hrun Hnd Hin)
      as ([s t'] & Hs & Hget).
    subst step. unfold step_conditioned in Hs. rewrite Hg in Hs.
    destruct (reshape_negatives_faithful _ _ _ _ Hs) as [Hh Ht].
    split.
    + intros hds hd Hhd Hlook. apply Hh.
      destruct (output_format self); try congruence; simpl in Hhd;
        inversion Hhd; subst hds;
        rewrite dict_get_dict_map, Hget in Hlook; simpl in Hlook; congruence.
    + intros tls tl Htl Hlook. apply Ht.
      destruct (output_format self); try congruence; simpl in Htl;
        inversion Htl; subst tls;
        rewrite dict_get_dict_map, Hget in Hlook; simpl in Hlook; congruence.
Qed.

(** Four sources and two destinations for two positives at ratio 2: the head
    is [2 x 2] over the four sources, the tail [1 x 2] over the two
    destinations. *)
Lemma stored_reshapes_keep_every_negative_witness :
  faithful_view 2 [9; 10; 11; 12]%Z (mkTensor2 2 2 [9; 10; 11; 12]%Z) /\
  faithful_view 2 [8; 7]%Z (mkTensor2 1 2 [8; 7]%Z).
Proof.
  destruct (@stored_reshapes_keep_every_negative
              (fixed_negatives ([9; 10; 11; 12]%Z, [8; 7]%Z))
              (mkNegativeSampler 2 CONDITIONED) ltac:(discriminate))
    as [Hp _].
  destruct (Hp two_positives [9; 10; 11; 12]%Z [8; 7]%Z None None None [] _
               eq_refl eq_refl) as [Hh Ht].
  split; [apply Hh|apply Ht]; reflexivity.
Defined.

(** ** The side a one-sided format does not select *)

Lemma reshape_head_ignores_tail k n1 n2 :
  fst n1 = fst n2 ->
  reshape_negatives HEAD_CONDITIONED k n1 =
  reshape_negatives HEAD_CONDITIONED k n2.
Proof. intros H. simpl. now rewrite H. Qed.

Lemma reshape_tail_ignores_head k n1 n2 :
  snd n1 = snd n2 ->
  reshape_negatives TAIL_CONDITIONED k n1 =
  reshape_negatives TAIL_CONDITIONED k n2.
Proof. intros H. simpl. now rewrite H. Qed.

Section OtherSide.

Variables gen1 gen2 : NodePairs -> option string -> Exc + NodePairs.
Variable fmt : LinkPredictionEdgeFormat.
Variable k : Z.
Variable proj : NodePairs -> Tensor.
Hypothesis Hfmt : fmt <> INDEPENDENT.
Hypothesis Hproj :
  forall n1 n2, proj n1 = proj n2 ->
                reshape_negatives fmt k n1 = reshape_negatives fmt k n2.
Hypothesis Hsame : forall pos etype, same_on proj (gen1 pos etype) (gen2 pos etype).

Lemma sample_ignores_other_side np l h t o :
  distinct_relations np ->
  _sample gen1 (mkNegativeSampler k fmt) (mkMiniBatch np l h t o) =
  _sample gen2 (mkNegativeSampler k fmt) (mkMiniBatch np l h t o).
Proof.
  intros Hwf. destruct np as [[pos|d]|]; [| |reflexivity].
  - rewrite !sample_pair. specialize (Hsame pos None).
    destruct (gen1 pos None) as [x|n1], (gen2 pos None) as [y|n2];
      simpl in Hsame; try contradiction; [now subst|].
    rewrite !collate_pair_conditioned by exact Hfmt.
    cbn [output_format negative_ratio]. apply Hproj in Hsame. now rewrite Hsame.
  - simpl in Hwf. rewrite !sample_mapping_conditioned by assumption.
    cbn [output_format negative_ratio].
    rewrite (@run_items_ext _ (step_conditioned gen1 fmt k)
                            (step_conditioned gen2 fmt k)); [reflexivity|].
    intros e pos _. unfold step_conditioned. specialize (Hsame pos (Some e)).
    destruct (gen1 pos (Some e)) as [x|n1], (gen2 pos (Some e)) as [y|n2];
      simpl in Hsame; try contradiction; [now subst|].
    now apply Hproj.
Qed.

End OtherSide.

(** X11. Under HEAD_CONDITIONED the destinations the generator returns are
    never looked at, not even their number: two strategies that raise the same
    errors and return the same sources give the same outcome and the same
    minibatch.  Under TAIL_CONDITIONED the same holds of the sources. *)
Theorem one_sided_formats_ignore_other_side :
  forall (gen1 gen2 : NodePairs -> option string -> Exc + NodePairs)
         (k : Z) (np : option NodePairField)
         (l : option LabelField) (h t : option NegativeField)
         (o : list (string * Tensor)),
    distinct_relations np ->
    ((forall pos etype, same_on fst (gen1 pos etype) (gen2 pos etype)) ->
     _sample gen1 (mkNegativeSampler k HEAD_CONDITIONED)
             (mkMiniBatch np l h t o) =
     _sample gen2 (mkNegativeSampler k HEAD_CONDITIONED)
             (mkMiniBatch np l h t o)) /\
    ((forall pos etype, same_on snd (gen1 pos etype) (gen2 pos etype)) ->
     _sample gen1 (mkNegativeSampler k TAIL_CONDITIONED)
             (mkMiniBatch np l h t o) =
     _sample gen2 (mkNegativeSampler k TAIL_CONDITIONED)
             (mkMiniBatch np l h t o)).
Proof.
  intros gen1 gen2 k np l h t o Hwf. split; intros Hsame.
  - apply sample_ignores_other_side with (proj := fst); auto.
    + discriminate.
    + intros n1 n2. apply reshape_head_ignores_tail.
  - apply sample_ignores_other_side with (proj := snd); auto.
    + discriminate.
    + intros n1 n2. apply reshape_tail_ignores_head.
Qed.

(** Two sources with two destinations, or with none, at ratio 1 under
    HEAD_CONDITIONED. *)
Lemma one_sided_formats_ignore_other_side_witness :
  _sample (fixed_negatives ([9; 10]%Z, [8; 7]%Z))
          (mkNegativeSampler 1 HEAD_CONDITIONED)
          (fresh_minibatch (Pair two_positives)) =
  _sample (fixed_negatives ([9; 10]%Z, []))
          (mkNegativeSampler 1 HEAD_CONDITIONED)
          (fresh_minibatch (Pair two_positives)).
Proof.
  apply (proj1 (@one_sided_formats_ignore_other_side
                  (fixed_negatives ([9; 10]%Z, [8; 7]%Z))
                  (fixed_negatives ([9; 10]%Z, []))
                  1%Z (Some (Pair two_positives)) None None None [] I)).
  intros pos etype. reflexivity.
Defined.
